(** * web-search-ai-agent: the inference client and the search client

    A shallow embedding of [src/llm.ts] (class [NosanaLLM]),
    [src/tools/scraper.ts] (class [BrightDataScraper]) and the tool that
    wraps the scraper (class [WebSearchTool]), and the properties of the
    specification that concern them.

    Conventions of the embedding.
    - A JavaScript string is a [string]; each character stands for one
      UTF-16 code unit, so [String.length] is the [length] property.
    - A payload received from a server is a [value]: the JSON domain plus
      [undefined].  Numbers are integers; the code only ever tests a number
      for truthiness, and every non-integral number is truthy like any
      non-zero integer.
    - [await] on a promise is sequencing; a rejected promise is a thrown
      value.  Console output is not part of the model: no function reads
      it back and none of the logging expressions can throw. *)

From Stdlib Require Import String Ascii List ZArith Bool Lia QArith DecimalString.
Import ListNotations.

Local Close Scope Q_scope.
Local Open Scope list_scope.
Local Open Scope string_scope.

Set Implicit Arguments.
Set Warnings "-register-all,-abstract-large-number".

(** ** JavaScript values *)

Inductive value : Type :=
| VUndefined
| VNull
| VBool (b : bool)
| VNum (n : Z)
| VStr (s : string)
| VArr (items : list value)
| VObj (fields : list (string * value)).

(** [ToBoolean]: what [if (v)], [v && w], [v || w] and [!v] test. *)
Definition truthy (v : value) : bool :=
  match v with
  | VUndefined | VNull => false
  | VBool b => b
  | VNum n => negb (n =? 0)%Z
  | VStr s => negb (s =? EmptyString)
  | VArr _ | VObj _ => true
  end.

(** Own property of an object literal; the first binding of a key is the
    property (the list holds the properties in insertion order). *)
Fixpoint lookup (key : string) (fields : list (string * value)) : option value :=
  match fields with
  | [] => None
  | (k, v) :: rest => if k =? key then Some v else lookup key rest
  end.

(** [v.name] for a [v] that is neither [null] nor [undefined], and a
    [name] that is not inherited from a prototype (the names the code
    reads are [choices], [message], [content] and [response]).  On a
    primitive or an array such a property is [undefined]. *)
Definition get_prop (v : value) (name : string) : value :=
  match v with
  | VObj fields =>
      match lookup name fields with
      | Some x => x
      | None => VUndefined
      end
  | _ => VUndefined
  end.

Definition Array_isArray (v : value) : bool :=
  match v with
  | VArr _ => true
  | _ => false
  end.

(** [a.length] and [a[0]] of an array. *)
Definition array_length (v : value) : Z :=
  match v with
  | VArr items => Z.of_nat (List.length items)
  | _ => 0
  end.

Definition array_first (v : value) : value :=
  match v with
  | VArr (x :: _) => x
  | _ => VUndefined
  end.

(** ** Strings *)

(** [`${n}`] for an integer [n]. *)
Definition string_of_Z (n : Z) : string := NilZero.string_of_int (Z.to_int n).

(** [s.substring(start, end)]: both indices are clamped to [0, s.length]
    and swapped when out of order. *)
Definition js_substring (s : string) (start stop : Z) : string :=
  let len := Z.of_nat (String.length s) in
  let clamp := fun i => Z.max 0 (Z.min i len) in
  let a := Z.min (clamp start) (clamp stop) in
  let b := Z.max (clamp start) (clamp stop) in
  String.substring (Z.to_nat a) (Z.to_nat (b - a)) s.

(** [s.endsWith(suffix)] *)
Fixpoint ends_with (s suffix : string) : bool :=
  (s =? suffix) ||
  match s with
  | EmptyString => false
  | String _ rest => ends_with rest suffix
  end.

(** [s.startsWith(pre)] *)
Fixpoint starts_with (s pre : string) : bool :=
  match pre, s with
  | EmptyString, _ => true
  | String p pre', String c s' => Ascii.eqb p c && starts_with s' pre'
  | String _ _, EmptyString => false
  end.

(** [s.includes(sub)] *)
Fixpoint includes (s sub : string) : bool :=
  starts_with s sub ||
  match s with
  | EmptyString => false
  | String _ rest => includes rest sub
  end.

(** [s.replace(/\/+$/, '')].  The pattern is tried at each position from
    the left; it matches at a position exactly when everything from there
    to the end of the input is a non-empty run of slashes. *)
Fixpoint all_slashes (s : string) : bool :=
  match s with
  | EmptyString => true
  | String c rest => Ascii.eqb c "/" && all_slashes rest
  end.

Fixpoint replace_trailing_slashes (s : string) : string :=
  match s with
  | EmptyString => EmptyString
  | String c rest =>
      if all_slashes s then EmptyString
      else String c (replace_trailing_slashes rest)
  end.

(** [s.replace(/\/api$/, '')]: the pattern matches at a position exactly
    when what is left of the input there is [/api]. *)
Fixpoint replace_trailing_api (s : string) : string :=
  match s with
  | EmptyString => EmptyString
  | String c rest =>
      if s =? "/api" then EmptyString
      else String c (replace_trailing_api rest)
  end.

(** ** Thrown values and results *)

(** What [axios.post] resolves to; the other fields of the response object
    (headers, config) are never read. *)
Record http_response : Type := { status : Z; data : value }.

(** The values the code throws or catches, with the three properties the
    handlers read: [message], [request] and [response]. *)
Inductive exn : Type :=
| Error (message : string)        (* [new Error(message)] *)
| TypeError (message : string)    (* property read on [null] or [undefined] *)
| URIError (message : string)     (* [encodeURIComponent] on a lone surrogate *)
| AxiosError (message : string) (request : bool) (response : option http_response).

Definition exn_message (e : exn) : string :=
  match e with
  | Error m | TypeError m | URIError m | AxiosError m _ _ => m
  end.

Definition exn_response (e : exn) : option http_response :=
  match e with
  | AxiosError _ _ r => r
  | _ => None
  end.

Definition exn_request (e : exn) : bool :=
  match e with
  | AxiosError _ rq _ => rq
  | _ => false
  end.

Inductive result (A : Type) : Type :=
| Return (a : A)
| Throw (e : exn).

Arguments Return {A} a.
Arguments Throw {A} e.

Definition rbind {A B : Type} (r : result A) (k : A -> result B) : result B :=
  match r with
  | Return a => k a
  | Throw e => Throw e
  end.

Notation "x <-- r ; k" := (rbind r (fun x => k))
  (at level 61, r at next level, right associativity).

(** [o.name]: throws on [null] and [undefined]. *)
Definition member (o : value) (name : string) : result value :=
  match o with
  | VUndefined =>
      Throw (TypeError ("Cannot read properties of undefined (reading '" ++ name ++ "')"))
  | VNull =>
      Throw (TypeError ("Cannot read properties of null (reading '" ++ name ++ "')"))
  | _ => Return (get_prop o name)
  end.

(** [a && b]: [b] is evaluated only when [a] is truthy, and the value of
    the whole is the value of the operand evaluated last. *)
Definition and_then (a b : result value) : result value :=
  x <-- a ; if truthy x then b else Return x.

Notation "a &&& b" := (and_then a b) (at level 40, left associativity).

(** ** The runtime's built-ins *)

Class JsRuntime : Type := {
  (** [JSON.stringify(v)]; [None] is the result [undefined] *)
  JSON_stringify : value -> option string;
  (** [JSON.stringify(v, null, 2)] *)
  JSON_stringify_indent2 : value -> option string;
  (** [encodeURIComponent(s)] *)
  encodeURIComponent : string -> result string;
  (** [process.env.NAME] *)
  process_env : string -> option string;
  (** within the JSON domain only [undefined] has no serialization *)
  JSON_stringify_indent2_defined :
    forall v, v <> VUndefined -> JSON_stringify_indent2 v <> None
}.

(** An [undefined] interpolated in a template literal. *)
Definition interpolate (o : option string) : string :=
  match o with
  | Some s => s
  | None => "undefined"
  end.

(** ** Outbound requests and asynchronous computations *)

Record ChatMessage : Type := { role : string; content : string }.

(** The request bodies, one constructor for each object literal the code
    posts. *)
Inductive body : Type :=
| ChatCompletionsBody (model : string) (messages : list ChatMessage)
    (temperature : Q) (max_tokens : Z) (stream : bool)
| GenerateBody (model prompt : string) (stream : bool)
| ChatBody (model : string) (messages : list ChatMessage) (stream : bool)
| ScrapeBody (zone url format : string).

(** The arguments of one [axios.post(url, data, config)]. *)
Record request : Type := {
  req_url : string;
  req_data : body;
  req_headers : list (string * string);
  req_timeout : option Z;
  req_params : list (string * Z)
}.

(** How the promise of [axios.post] settles: resolved with a response
    (status 2xx), or rejected with an [AxiosError] that has a [message],
    has a [request] when one was sent, and has a [response] when the
    server answered. *)
Inductive outcome : Type :=
| Resolved (response : http_response)
| Rejected (message : string) (request : bool) (response : option http_response).

Definition settle (o : outcome) : result http_response :=
  match o with
  | Resolved r => Return r
  | Rejected m rq resp => Throw (AxiosError m rq resp)
  end.

(** The network: the outcome of a request, which may depend on the
    requests made before it. *)
Definition Backend : Type := list request -> request -> outcome.

(** A computation runs against a network and a log of the requests made
    so far, and extends the log. *)
Definition Async (A : Type) : Type :=
  Backend -> list request -> result A * list request.

Definition ret {A : Type} (a : A) : Async A :=
  fun _ log => (Return a, log).

Definition throw {A : Type} (e : exn) : Async A :=
  fun _ log => (Throw e, log).

Definition bind {A B : Type} (m : Async A) (k : A -> Async B) : Async B :=
  fun net log =>
    match m net log with
    | (Return a, log') => k a net log'
    | (Throw e, log') => (Throw e, log')
    end.

(** [try { body } catch (error) { handler }] *)
Definition try_catch {A : Type} (m : Async A) (handler : exn -> Async A) : Async A :=
  fun net log =>
    match m net log with
    | (Return a, log') => (Return a, log')
    | (Throw e, log') => handler e net log'
    end.

(** A synchronous expression evaluated inside an [async] function. *)
Definition lift {A : Type} (r : result A) : Async A :=
  fun _ log => (r, log).

Definition axios_post (rq : request) : Async http_response :=
  fun net log => (settle (net log rq), (log ++ [rq])%list).

Notation "x <- m ;; k" := (bind m (fun x => k))
  (at level 61, m at next level, right associativity).

(** How many of the logged requests went to [url]. *)
Definition calls_to (url : string) (log : list request) : nat :=
  List.length (filter (fun rq => req_url rq =? url) log).

(** ** [src/llm.ts] *)

Module NosanaLLM.

Inductive format : Type := openai | ollama.

Record t : Type := { baseUrl : string; model : string }.

(** [a || b] on operands of type [string | undefined]. *)
Definition or_else (a b : option string) : option string :=
  match a with
  | Some s => if s =? EmptyString then b else a
  | None => b
  end.

(** [a || d] where [d] is a string literal. *)
Definition or_default (a : option string) (d : string) : string :=
  match a with
  | Some s => if s =? EmptyString then d else s
  | None => d
  end.

Definition normalize (baseUrl : string) : string :=
  replace_trailing_api (replace_trailing_slashes baseUrl).

Section Methods.
Context {RT : JsRuntime}.

Definition constructor (baseUrl : string) (model : option string) : t :=
  {| baseUrl := normalize baseUrl;
     model := or_default (or_else model (process_env "NOSANA_MODEL")) "ollama:0.12" |}.

(** The arguments [makeApiCall] passes to [axios.post]. *)
Definition api_request (url : string) (data : body) : request :=
  {| req_url := url;
     req_data := data;
     req_headers := [("Content-Type", "application/json")];
     req_timeout := Some 60000%Z;
     req_params := [] |}.

Definition makeApiCall (url : string) (data : body) : Async http_response :=
  axios_post (api_request url data).

(** The sub-expressions of the structure check, each evaluated from
    [response.data] as the source writes them. *)
Definition data_choices (d : value) : result value :=
  member d "choices".

Definition first_message (d : value) : result value :=
  choices <-- data_choices d ; member (array_first choices) "message".

Definition first_content (d : value) : result value :=
  message <-- first_message d ; member message "content".

Definition data_message_content (d : value) : result value :=
  message <-- member d "message" ; member message "content".

Definition invalid_format (response : http_response) : result value :=
  Throw (Error ("Invalid response format: " ++ interpolate (JSON_stringify (data response)))).

(** [response] is the object [axios.post] resolved to, hence truthy. *)
Definition parseResponse (response : http_response) (fmt : format) : result value :=
  let d := data response in
  match fmt with
  | openai =>
      ok <-- Return d &&& data_choices d
             &&& (choices <-- data_choices d ; Return (VBool (Array_isArray choices)))
             &&& (choices <-- data_choices d ; Return (VBool (0 <? array_length choices)%Z))
             &&& first_message d &&& first_content d ;
      if truthy ok then first_content d else invalid_format response
  | ollama =>
      ok <-- Return d &&& member d "response" ;
      if truthy ok then member d "response"
      else
        ok' <-- Return d &&& member d "message" &&& data_message_content d ;
        if truthy ok' then data_message_content d else invalid_format response
  end.

Definition handleApiError (error : exn) (url : string) (fallback : Async value) : Async value :=
  match exn_response error with
  | Some response =>
      if ((status response =? 404) || (status response =? 405))%Z then fallback
      else throw (Error ("Nosana API Error " ++ string_of_Z (status response) ++ ": "
                         ++ interpolate (JSON_stringify (data response))))
  | None =>
      if exn_request error
      then throw (Error ("No response from Nosana: " ++ exn_message error))
      else throw (Error ("Request failed: " ++ exn_message error))
  end.

Definition generateNativeOllama (self : t) (prompt : string) : Async value :=
  let url := baseUrl self ++ "/api/generate" in
  try_catch
    (response <- makeApiCall url (GenerateBody (model self) prompt false) ;;
     lift (parseResponse response ollama))
    (fun _ =>
       throw (Error "Both API formats failed. Check Nosana documentation for correct endpoint.")).

Definition chatNativeOllama (self : t) (messages : list ChatMessage) : Async value :=
  let url := baseUrl self ++ "/api/chat" in
  try_catch
    (response <- makeApiCall url (ChatBody (model self) messages false) ;;
     lift (parseResponse response ollama))
    (fun error => throw (Error ("Native chat also failed: " ++ exn_message error))).

Definition generate (self : t) (prompt : string) : Async value :=
  let url := baseUrl self ++ "/v1/chat/completions" in
  try_catch
    (response <- makeApiCall url
                   (ChatCompletionsBody (model self)
                      [{| role := "user"; content := prompt |}]
                      (7 # 10) 1000 false) ;;
     lift (parseResponse response openai))
    (fun error => handleApiError error url (generateNativeOllama self prompt)).

Definition chat (self : t) (messages : list ChatMessage) : Async value :=
  let url := baseUrl self ++ "/v1/chat/completions" in
  try_catch
    (response <- makeApiCall url
                   (ChatCompletionsBody (model self) messages (7 # 10) 1000 false) ;;
     lift (parseResponse response openai))
    (fun error => handleApiError error url (chatNativeOllama self messages)).

End Methods.

End NosanaLLM.

(** ** [src/tools/scraper.ts] *)

Module BrightDataScraper.

Record SearchResult : Type := { title : string; url : string; snippet : string }.

Record t : Type := { apiToken : string; baseUrl : string; zone : string }.

(** [zone: string = 'serp_api1']: the default stands in for an absent
    argument. *)
Definition constructor (apiToken : string) (zone : option string) : t :=
  {| apiToken := apiToken;
     baseUrl := "https://api.brightdata.com";
     zone := match zone with Some z => z | None => "serp_api1" end |}.

Section Methods.
Context {RT : JsRuntime}.

(** [typeof data === 'string' ? data : JSON.stringify(data, null, 2)] *)
Definition data_string (data : value) : option string :=
  match data with
  | VStr s => Some s
  | _ => JSON_stringify_indent2 data
  end.

Definition formatRawResults (data : value) : result (list SearchResult) :=
  if negb (truthy data) then Return []
  else
    match data_string data with
    | Some s =>
        Return [{| title := "Search Results";
                   url := "https://www.google.com";
                   snippet := js_substring s 0 5000 |}]
    | None =>
        Throw (TypeError "Cannot read properties of undefined (reading 'substring')")
    end.

(** The arguments of the one [axios.post] of [searchWeb]. *)
Definition search_request (self : t) (searchUrl : string) : request :=
  {| req_url := baseUrl self ++ "/request";
     req_data := ScrapeBody (zone self) searchUrl "json";
     req_headers := [("Authorization", "Bearer " ++ apiToken self);
                     ("Content-Type", "application/json")];
     req_timeout := None;
     req_params := [("brd_json", 1%Z)] |}.

Definition search_url (encoded : string) : string :=
  "https://www.google.com/search?q=" ++ encoded ++ "&hl=en&gl=us".

(** [limit: number = 5] is accepted and never read. *)
Definition searchWeb (self : t) (query : string) (limit : option Z)
  : Async (list SearchResult) :=
  try_catch
    (encoded <- lift (encodeURIComponent query) ;;
     let searchUrl := search_url encoded in
     response <- axios_post (search_request self searchUrl) ;;
     lift (formatRawResults (data response)))
    (fun _ => ret []).

End Methods.

End BrightDataScraper.

(** ** The search tool (class [WebSearchTool]) *)

Module WebSearchTool.

Record t : Type := {
  name : string;
  description : string;
  scraper : BrightDataScraper.t
}.

Definition constructor (scraper : BrightDataScraper.t) : t :=
  {| name := "web_search";
     description := "Useful for searching the web for current information. Input should be a search query string.";
     scraper := scraper |}.

Definition double_quote : string := String (ascii_of_nat 34) EmptyString.
Definition line_feed : string := String (ascii_of_nat 10) EmptyString.

(** The text returned for an empty result sequence. *)
Definition no_results : string :=
  "No search results found. The web search failed or returned no data.".

(** The template literal of the other return, up to the snippet. *)
Definition results_header (query : string) : string :=
  "Web search results for " ++ double_quote ++ query ++ double_quote ++ ":"
  ++ line_feed ++ line_feed.

Section Methods.
Context {RT : JsRuntime}.

(** [searchWeb(query)] leaves [limit] to its default. *)
Definition _call (self : t) (query : string) : Async string :=
  results <- BrightDataScraper.searchWeb (scraper self) query None ;;
  match results with
  | [] => ret no_results
  | first :: _ => ret (results_header query ++ BrightDataScraper.snippet first)
  end.

End Methods.

End WebSearchTool.

(** ** A concrete runtime

    The built-ins as Node.js computes them on the values of the model, used
    to run the clients on concrete inputs.  Object keys are assumed
    distinct, as they are in a parsed payload. *)

Module Node.

Definition dquote : string := String (ascii_of_nat 34) EmptyString.
Definition newline : string := String (ascii_of_nat 10) EmptyString.

Definition hex_digit (upper : bool) (n : nat) : ascii :=
  if (n <? 10)%nat then ascii_of_nat (48 + n)
  else ascii_of_nat ((if upper then 55 else 87) + n).

Definition hex2 (upper : bool) (n : nat) : string :=
  String (hex_digit upper (n / 16)) (String (hex_digit upper (n mod 16)) EmptyString).

(** One code unit inside a JSON string literal. *)
Definition escape_char (c : ascii) : string :=
  let n := nat_of_ascii c in
  if (n =? 34)%nat then "\" ++ dquote
  else if (n =? 92)%nat then "\\"
  else if (n =? 8)%nat then "\b"
  else if (n =? 9)%nat then "\t"
  else if (n =? 10)%nat then "\n"
  else if (n =? 12)%nat then "\f"
  else if (n =? 13)%nat then "\r"
  else if (n <? 32)%nat then "\u00" ++ hex2 false n
  else String c EmptyString.

Fixpoint escape (s : string) : string :=
  match s with
  | EmptyString => EmptyString
  | String c rest => escape_char c ++ escape rest
  end.

Definition quote (s : string) : string := dquote ++ escape s ++ dquote.

Fixpoint join (sep : string) (parts : list string) : string :=
  match parts with
  | [] => EmptyString
  | [x] => x
  | x :: rest => x ++ sep ++ join sep rest
  end.

Definition or_null (o : option string) : string :=
  match o with
  | Some s => s
  | None => "null"
  end.

(** [JSON.stringify(v)] *)
Fixpoint stringify (v : value) : option string :=
  match v with
  | VUndefined => None
  | VNull => Some "null"
  | VBool b => Some (if b then "true" else "false")
  | VNum n => Some (string_of_Z n)
  | VStr s => Some (quote s)
  | VArr items =>
      Some ("[" ++ join "," (map (fun x => or_null (stringify x)) items) ++ "]")
  | VObj fields =>
      Some ("{" ++ join ","
                     (flat_map
                        (fun kv =>
                           match stringify (snd kv) with
                           | Some s => [quote (fst kv) ++ ":" ++ s]
                           | None => []
                           end) fields)
            ++ "}")
  end.

(** [JSON.stringify(v, null, 2)], at the current indentation. *)
Fixpoint stringify_at (indent : string) (v : value) : option string :=
  let inner := indent ++ "  " in
  match v with
  | VUndefined => None
  | VNull => Some "null"
  | VBool b => Some (if b then "true" else "false")
  | VNum n => Some (string_of_Z n)
  | VStr s => Some (quote s)
  | VArr items =>
      match map (fun x => or_null (stringify_at inner x)) items with
      | [] => Some "[]"
      | parts =>
          Some ("[" ++ newline ++ inner ++ join ("," ++ newline ++ inner) parts
                ++ newline ++ indent ++ "]")
      end
  | VObj fields =>
      match flat_map
              (fun kv =>
                 match stringify_at inner (snd kv) with
                 | Some s => [quote (fst kv) ++ ": " ++ s]
                 | None => []
                 end) fields with
      | [] => Some "{}"
      | parts =>
          Some ("{" ++ newline ++ inner ++ join ("," ++ newline ++ inner) parts
                ++ newline ++ indent ++ "}")
      end
  end.

Definition stringify_indent2 (v : value) : option string :=
  stringify_at EmptyString v.

(** [encodeURIComponent]: the unreserved characters are kept, every other
    code unit becomes the percent-encoded bytes of its UTF-8 form.  A code
    unit of the model is below 256, so no lone surrogate can occur. *)
Definition unreserved (n : nat) : bool :=
  ((65 <=? n) && (n <=? 90) || (97 <=? n) && (n <=? 122) || (48 <=? n) && (n <=? 57)
   || (n =? 45) || (n =? 95) || (n =? 46) || (n =? 33) || (n =? 126)
   || (n =? 42) || (n =? 39) || (n =? 40) || (n =? 41))%nat.

Definition encode_char (c : ascii) : string :=
  let n := nat_of_ascii c in
  if unreserved n then String c EmptyString
  else if (n <? 128)%nat then "%" ++ hex2 true n
  else "%" ++ hex2 true (192 + n / 64) ++ "%" ++ hex2 true (128 + n mod 64).

Fixpoint encode (s : string) : string :=
  match s with
  | EmptyString => EmptyString
  | String c rest => encode_char c ++ encode rest
  end.

End Node.

(** The runtime of a Node.js process with the environment [env]. *)
Definition node_runtime (env : string -> option string) : JsRuntime.
Proof.
  refine {| JSON_stringify := Node.stringify;
            JSON_stringify_indent2 := Node.stringify_indent2;
            encodeURIComponent := fun s => Return (Node.encode s);
            process_env := env;
            JSON_stringify_indent2_defined := _ |}.
  intros v H. unfold Node.stringify_indent2.
  destruct v as [ | | b | n | s | items | fields]; simpl; try discriminate.
  - contradiction H; reflexivity.
  - destruct (map _ items); discriminate.
  - destruct (flat_map _ fields); discriminate.
Defined.

(** ** Concrete networks and inputs *)

Module Scenario.

(** A network that answers by URL alone; an unknown URL is a refused
    connection (a request was made, no response came). *)
Fixpoint route (table : list (string * outcome)) (url : string) : outcome :=
  match table with
  | [] => Rejected "connect ECONNREFUSED" true None
  | (u, o) :: rest => if u =? url then o else route rest url
  end.

Definition network (table : list (string * outcome)) : Backend :=
  fun _ rq => route table (req_url rq).

(** The rejection [axios] produces for a response outside 2xx. *)
Definition http_error (code : Z) (payload : value) : outcome :=
  Rejected ("Request failed with status code " ++ string_of_Z code) true
    (Some {| status := code; data := payload |}).

Definition http_ok (payload : value) : outcome :=
  Resolved {| status := 200; data := payload |}.

Definition no_env : string -> option string := fun _ => None.

Definition env_model (name : string) : string -> option string :=
  fun key => if key =? "NOSANA_MODEL" then Some name else None.

Definition history : list ChatMessage :=
  [{| role := "system"; content := "Be brief." |};
   {| role := "user"; content := "Hello" |}].

Definition not_found : value := VObj [("error", VStr "not found")].

(** [{choices:[{message:{content:c}}]}] *)
Definition completion (c : value) : value :=
  VObj [("choices", VArr [VObj [("message", VObj [("content", c)])]])].

(** A client as [new NosanaLLM('http://host/api')] builds it with no
    [NOSANA_MODEL] set. *)
Definition client : NosanaLLM.t :=
  {| NosanaLLM.baseUrl := "http://host"; NosanaLLM.model := "ollama:0.12" |}.

(** The server fails on the primary endpoint. *)
Definition net_500 : Backend :=
  network [("http://host/v1/chat/completions",
            http_error 500 (VObj [("error", VStr "overloaded")]))].

(** No primary endpoint, and the alternate endpoints refuse connections. *)
Definition net_404_down : Backend :=
  network [("http://host/v1/chat/completions", http_error 404 not_found)].

(** No primary endpoint, and the alternate endpoints answer [{}]. *)
Definition net_404_empty : Backend :=
  network [("http://host/v1/chat/completions", http_error 404 not_found);
           ("http://host/api/generate", http_ok (VObj []));
           ("http://host/api/chat", http_ok (VObj []))].

(** No primary endpoint, and a native server behind the alternate ones. *)
Definition net_404_native : Backend :=
  network [("http://host/v1/chat/completions", http_error 404 not_found);
           ("http://host/api/generate", http_ok (VObj [("response", VStr "hi")]));
           ("http://host/api/chat",
            http_ok (VObj [("message", VObj [("role", VStr "assistant");
                                             ("content", VStr "hello")])]))].

Definition scraper : BrightDataScraper.t :=
  BrightDataScraper.constructor "token" None.

(** The provider rejects the token. *)
Definition net_401 : Backend :=
  network [("https://api.brightdata.com/request",
            http_error 401 (VStr "Unauthorized"))].

Definition long_text : string :=
  String.concat EmptyString (List.repeat "0123456789" 600).

(** The provider answers with a page of text, or with an empty body. *)
Definition net_page (page : value) : Backend :=
  network [("https://api.brightdata.com/request", http_ok page)].

End Scenario.

(** Further networks: a server that speaks the primary format, one that
    answers it with an unusable payload, one that is unreachable, and a
    request that could not be sent at all. *)
Module Cases.

Definition net_primary : Backend :=
  Scenario.network
    [("http://host/v1/chat/completions",
      Scenario.http_ok (Scenario.completion (VStr "hi")))].

Definition net_unusable : Backend :=
  Scenario.network
    [("http://host/v1/chat/completions", Scenario.http_ok (VObj []))].

Definition net_unreachable : Backend := Scenario.network [].

Definition net_unsent : Backend :=
  Scenario.network
    [("http://host/v1/chat/completions", Rejected "Invalid URL" false None)].

Definition tool : WebSearchTool.t := WebSearchTool.constructor Scenario.scraper.

End Cases.

(** ** The requests and errors of the specification *)

Section Interfaces.
Import NosanaLLM.
Context {RT : JsRuntime}.

(** [POST {base}/v1/chat/completions] *)
Definition primary_request (self : t) (messages : list ChatMessage) : request :=
  api_request (baseUrl self ++ "/v1/chat/completions")
    (ChatCompletionsBody (model self) messages (7 # 10) 1000 false).

Definition user_message (prompt : string) : list ChatMessage :=
  [{| role := "user"; content := prompt |}].

(** [POST {base}/api/generate] *)
Definition alternate_generate_request (self : t) (prompt : string) : request :=
  api_request (baseUrl self ++ "/api/generate") (GenerateBody (model self) prompt false).

(** [POST {base}/api/chat] *)
Definition alternate_chat_request (self : t) (messages : list ChatMessage) : request :=
  api_request (baseUrl self ++ "/api/chat") (ChatBody (model self) messages false).

(** The statuses that trigger the fallback. *)
Definition fallback_status (code : Z) : bool :=
  ((code =? 404) || (code =? 405))%Z.

(** [BackendError] *)
Definition backend_error (response : http_response) : exn :=
  Error ("Nosana API Error " ++ string_of_Z (status response) ++ ": "
         ++ interpolate (JSON_stringify (data response))).

(** [BothFormatsFailedError] *)
Definition both_formats_failed : exn :=
  Error "Both API formats failed. Check Nosana documentation for correct endpoint.".

(** [NativeChatFailedError] *)
Definition native_chat_failed (underlying : exn) : exn :=
  Error ("Native chat also failed: " ++ exn_message underlying).

(** The alternate attempt (request [rq], then the alternate-format parser)
    fails with [e]: the request is rejected, or its response is. *)
Definition alternate_fails (net : Backend) (log : list request) (rq : request) (e : exn)
  : Prop :=
  settle (net log rq) = Throw e \/
  exists r, net log rq = Resolved r /\ parseResponse r ollama = Throw e.

End Interfaces.

(** ** The payload shapes of the specification

    Written structurally, on the parsed payload, independently of how the
    parser inspects it. *)

(** [d] is an object whose [choices] is a non-empty array, the first
    element of which is an object with a [message] object that has a
    [content] property of value [v]. *)
Definition primary_shape (d v : value) : Prop :=
  exists fields first rest mfields,
    d = VObj fields /\
    lookup "choices" fields = Some (VArr (VObj first :: rest)) /\
    lookup "message" first = Some (VObj mfields) /\
    lookup "content" mfields = Some v.

(** [d] is an object with a direct [response] property of value [v]. *)
Definition has_response (d v : value) : Prop :=
  exists fields, d = VObj fields /\ lookup "response" fields = Some v.

(** [d] is an object with a [message] object that has a [content]
    property of value [v]. *)
Definition has_message_content (d v : value) : Prop :=
  exists fields mfields,
    d = VObj fields /\
    lookup "message" fields = Some (VObj mfields) /\
    lookup "content" mfields = Some v.

(** ** The outcomes of the primary attempt *)

Section PrimaryOutcomes.
Import NosanaLLM.
Context {RT : JsRuntime}.

(** The error of a response that arrived and could not be parsed. *)
Definition unparsed (e : exn) : exn := Error ("Request failed: " ++ exn_message e).

(** What the primary attempt comes to when no fallback is due. *)
Definition primary_outcome (o : outcome) : result value :=
  match o with
  | Resolved r =>
      match parseResponse r openai with
      | Return v => Return v
      | Throw e => Throw (unparsed e)
      end
  | Rejected _ _ (Some resp) => Throw (backend_error resp)
  | Rejected m true None => Throw (Error ("No response from Nosana: " ++ m))
  | Rejected m false None => Throw (Error ("Request failed: " ++ m))
  end.

(** Whether an outcome sends the call to the alternate endpoint. *)
Definition falls_back (o : outcome) : bool :=
  match o with
  | Rejected _ _ (Some resp) => fallback_status (status resp)
  | _ => false
  end.

End PrimaryOutcomes.

(** The one form a result of [searchWeb] can have. *)
Definition a_result (text : string) : BrightDataScraper.SearchResult :=
  {| BrightDataScraper.title := "Search Results";
     BrightDataScraper.url := "https://www.google.com";
     BrightDataScraper.snippet := js_substring text 0 5000 |}.

(** * Properties *)

(** ** Strings *)

Section StringFacts.

Lemma eqb_append_prefix (p a b : string) : (p ++ a =? p ++ b) = (a =? b).
Proof.
  induction p as [ | c p IH]; simpl; [reflexivity | ].
  rewrite Ascii.eqb_refl. exact IH.
Qed.

Lemma all_slashes_ends_with (c : ascii) (s : string) :
  all_slashes (String c s) = true -> ends_with (String c s) "/" = true.
Proof.
  revert c. induction s as [ | d s IH]; intros c H.
  - simpl in H. rewrite andb_true_r in H. apply Ascii.eqb_eq in H. subst c. reflexivity.
  - change (all_slashes (String c (String d s)))
      with (Ascii.eqb c "/" && all_slashes (String d s)) in H.
    apply andb_true_iff in H. destruct H as [_ H].
    change (ends_with (String c (String d s)) "/")
      with ((String c (String d s) =? "/") || ends_with (String d s) "/").
    rewrite (IH d H). apply orb_true_r.
Qed.

Lemma replace_trailing_slashes_length (s : string) :
  replace_trailing_slashes s = s \/
  String.length (replace_trailing_slashes s) < String.length s.
Proof.
  induction s as [ | c s IH]; [left; reflexivity | ].
  change (replace_trailing_slashes (String c s))
    with (if all_slashes (String c s) then EmptyString
          else String c (replace_trailing_slashes s)).
  destruct (all_slashes (String c s)).
  - right. simpl. lia.
  - destruct IH as [IH | IH].
    + left. rewrite IH. reflexivity.
    + right. simpl. lia.
Qed.

Lemma replace_trailing_api_length (s : string) :
  String.length (replace_trailing_api s) <= String.length s.
Proof.
  induction s as [ | c s IH]; [simpl; lia | ].
  change (replace_trailing_api (String c s))
    with (if String c s =? "/api" then EmptyString
          else String c (replace_trailing_api s)).
  destruct (String c s =? "/api"); simpl; lia.
Qed.

(** The first replacement leaves exactly the strings without a trailing
    slash alone. *)
Lemma replace_trailing_slashes_fixed (s : string) :
  replace_trailing_slashes s = s <-> ends_with s "/" = false.
Proof.
  induction s as [ | c s IH]; [split; reflexivity | ].
  change (replace_trailing_slashes (String c s))
    with (if all_slashes (String c s) then EmptyString
          else String c (replace_trailing_slashes s)).
  destruct (all_slashes (String c s)) eqn:Hall.
  - rewrite (all_slashes_ends_with _ _ Hall). split; discriminate.
  - change (ends_with (String c s) "/")
      with ((String c s =? "/") || ends_with s "/").
    destruct (String c s =? "/") eqn:Heq.
    + apply String.eqb_eq in Heq. rewrite Heq in Hall. discriminate.
    + simpl. rewrite <- IH. split; intros H; [injection H; auto | f_equal; exact H].
Qed.

(** The second replacement leaves exactly the strings that do not end in
    [/api] alone. *)
Lemma replace_trailing_api_fixed (s : string) :
  replace_trailing_api s = s <-> ends_with s "/api" = false.
Proof.
  induction s as [ | c s IH]; [split; reflexivity | ].
  change (replace_trailing_api (String c s))
    with (if String c s =? "/api" then EmptyString
          else String c (replace_trailing_api s)).
  change (ends_with (String c s) "/api")
    with ((String c s =? "/api") || ends_with s "/api").
  destruct (String c s =? "/api").
  - split; discriminate.
  - simpl. rewrite <- IH. split; intros H; [injection H; auto | f_equal; exact H].
Qed.

Lemma normalize_fixed (s : string) :
  NosanaLLM.normalize s = s <->
  ends_with s "/" = false /\ ends_with s "/api" = false.
Proof.
  unfold NosanaLLM.normalize. split.
  - intros H.
    assert (Hs : replace_trailing_slashes s = s).
    { destruct (replace_trailing_slashes_length s) as [E | L]; [exact E | ].
      pose proof (replace_trailing_api_length (replace_trailing_slashes s)) as L'.
      rewrite H in L'. lia. }
    rewrite Hs in H. split.
    + apply replace_trailing_slashes_fixed; exact Hs.
    + apply replace_trailing_api_fixed; exact H.
  - intros [H1 H2].
    apply replace_trailing_slashes_fixed in H1. rewrite H1.
    apply replace_trailing_api_fixed; exact H2.
Qed.

End StringFacts.

Lemma substring_prefix (m : nat) (s : string) :
  exists rest, s = String.substring 0 m s ++ rest /\
               String.length (String.substring 0 m s) = Nat.min m (String.length s).
Proof.
  revert m. induction s as [ | c s IH]; intros m.
  - exists EmptyString. destruct m; split; reflexivity.
  - destruct m as [ | m].
    + exists (String c s). split; reflexivity.
    + destruct (IH m) as [rest [E L]]. exists rest. simpl. split.
      * f_equal. exact E.
      * f_equal. exact L.
Qed.

Lemma js_substring_prefix (s : string) (stop : nat) :
  exists rest, s = js_substring s 0 (Z.of_nat stop) ++ rest /\
               String.length (js_substring s 0 (Z.of_nat stop))
               = Nat.min stop (String.length s).
Proof.
  unfold js_substring. cbv zeta.
  replace (Z.to_nat (Z.min (Z.max 0 (Z.min 0 (Z.of_nat (String.length s))))
                           (Z.max 0 (Z.min (Z.of_nat stop) (Z.of_nat (String.length s))))))
    with 0 by lia.
  replace (Z.to_nat (Z.max (Z.max 0 (Z.min 0 (Z.of_nat (String.length s))))
                           (Z.max 0 (Z.min (Z.of_nat stop) (Z.of_nat (String.length s))))
                     - Z.min (Z.max 0 (Z.min 0 (Z.of_nat (String.length s))))
                             (Z.max 0 (Z.min (Z.of_nat stop) (Z.of_nat (String.length s))))))
    with (Nat.min stop (String.length s)) by lia.
  destruct (substring_prefix (Nat.min stop (String.length s)) s) as [rest [E L]].
  exists rest. split; [exact E | ]. rewrite L. lia.
Qed.

(** ** Construction of the inference client *)

Section Construction.
Import NosanaLLM.

(** C2, as the specification states it, fails: a base address that ends in
    two API segments loses one of them at each normalization. *)
Lemma normalize_not_idempotent :
  normalize "http://host/api/api" = "http://host/api" /\
  normalize (normalize "http://host/api/api") = "http://host" /\
  normalize (normalize "http://host/api/api") <> normalize "http://host/api/api".
Proof.
  repeat split; try reflexivity. discriminate.
Qed.

(** C2 (amended).  Normalizing twice gives the same address as normalizing
    once exactly when the normalized address ends neither in a slash nor in
    [/api]; this is the case for [http://host/api] and [http://host/],
    which both normalize to [http://host]. *)
Theorem normalize_idempotent_iff (x : string) :
  (normalize (normalize x) = normalize x <->
   ends_with (normalize x) "/" = false /\ ends_with (normalize x) "/api" = false)
  /\ normalize "http://host/api" = "http://host"
  /\ normalize "http://host/" = "http://host"
  /\ normalize (normalize "http://host/api") = normalize "http://host/api"
  /\ normalize (normalize "http://host/") = normalize "http://host/".
Proof.
  split; [apply normalize_fixed | repeat split; reflexivity].
Qed.

(** C3, as the specification states it, fails: an explicit empty model
    name is passed over in favour of the environment. *)
Lemma explicit_empty_model_not_used :
  model (constructor (RT := node_runtime (Scenario.env_model "llama3"))
           "http://host" (Some EmptyString)) = "llama3" /\
  model (constructor (RT := node_runtime (Scenario.env_model "llama3"))
           "http://host" (Some EmptyString)) <> EmptyString.
Proof.
  split; [reflexivity | discriminate].
Qed.

(** C3 (amended).  A non-empty explicit model name is used whatever the
    environment holds; with the argument absent or empty, a non-empty
    [NOSANA_MODEL] is used; with that absent or empty too, the model is
    [ollama:0.12]. *)
Theorem model_resolution_precedence (RT : JsRuntime) (url : string) :
  (forall m : string,
      m <> EmptyString -> model (constructor url (Some m)) = m) /\
  (forall (arg : option string) (e : string),
      arg = None \/ arg = Some EmptyString ->
      process_env "NOSANA_MODEL" = Some e -> e <> EmptyString ->
      model (constructor url arg) = e) /\
  (forall arg : option string,
      arg = None \/ arg = Some EmptyString ->
      process_env "NOSANA_MODEL" = None \/ process_env "NOSANA_MODEL" = Some EmptyString ->
      model (constructor url arg) = "ollama:0.12").
Proof.
  repeat split.
  - intros m Hm. simpl. apply String.eqb_neq in Hm. rewrite Hm. simpl. rewrite Hm.
    reflexivity.
  - intros arg e Harg He Hne. apply String.eqb_neq in Hne.
    destruct Harg as [-> | ->]; simpl; rewrite He; simpl; rewrite Hne; reflexivity.
  - intros arg Harg Henv.
    destruct Harg as [-> | ->]; simpl; destruct Henv as [-> | ->]; reflexivity.
Qed.

Lemma model_resolution_precedence_witness :
  model (constructor (RT := node_runtime (Scenario.env_model "llama3"))
           "http://host/api" (Some "qwen3:8b")) = "qwen3:8b" /\
  model (constructor (RT := node_runtime (Scenario.env_model "llama3"))
           "http://host/api" None) = "llama3" /\
  model (constructor (RT := node_runtime Scenario.no_env)
           "http://host/api" None) = "ollama:0.12".
Proof.
  split; [ | split].
  - apply (proj1 (model_resolution_precedence
                    (node_runtime (Scenario.env_model "llama3")) "http://host/api")).
    discriminate.
  - apply (proj1 (proj2 (model_resolution_precedence
                    (node_runtime (Scenario.env_model "llama3")) "http://host/api"))).
    + left; reflexivity.
    + reflexivity.
    + discriminate.
  - apply (proj2 (proj2 (model_resolution_precedence
                    (node_runtime Scenario.no_env) "http://host/api"))).
    + left; reflexivity.
    + left; reflexivity.
Defined.

End Construction.

(** ** Response parsing *)

Tactic Notation "case_value" constr(v) "as" ident(items) ident(fields) :=
  destruct v as [ | | [ | ] | [ | ? | ? ] | [ | ? ? ] | items | fields ].

Ltac refute := let H := fresh in intros H; discriminate H.

Ltac unfold_parser :=
  unfold NosanaLLM.parseResponse, NosanaLLM.invalid_format, NosanaLLM.first_content,
    NosanaLLM.first_message, NosanaLLM.data_choices, NosanaLLM.data_message_content,
    and_then, member.

Section Parsing.
Import NosanaLLM.
Context {RT : JsRuntime}.

Lemma parse_primary_sound (r : http_response) (v : value) :
  parseResponse r openai = Return v ->
  primary_shape (data r) v /\ truthy v = true.
Proof.
  unfold_parser.
  case_value (data r) as items fields; cbn; try refute.
  destruct (lookup "choices" fields) as [c | ] eqn:Ec; cbn; try refute.
  case_value c as citems cfields; cbn; try refute.
  destruct citems as [ | first rest]; cbn; try refute.
  case_value first as fitems ffields; cbn; try refute.
  destruct (lookup "message" ffields) as [m | ] eqn:Em; cbn; try refute.
  case_value m as mitems mfields; cbn; try refute.
  destruct (lookup "content" mfields) as [x | ] eqn:Ex; cbn; try refute.
  destruct (truthy x) eqn:Tx; cbn; try refute.
  intros H. injection H as <-. split; [ | exact Tx].
  exists fields, ffields, rest, mfields. repeat split; assumption.
Qed.

Lemma parse_primary_complete (r : http_response) (v : value) :
  primary_shape (data r) v -> truthy v = true ->
  parseResponse r openai = Return v.
Proof.
  intros (fields & first & rest & mfields & Hd & Hc & Hm & Hx) Tv.
  unfold_parser. rewrite Hd. cbn. rewrite Hc. cbn. rewrite Hm. cbn.
  rewrite Hx. cbn. rewrite Tv. cbn. rewrite ?Hc, ?Hm, ?Hx. reflexivity.
Qed.

Lemma parse_alternate_sound (r : http_response) (v : value) :
  parseResponse r ollama = Return v ->
  (has_response (data r) v /\ truthy v = true) \/
  ((forall w, has_response (data r) w -> truthy w = false) /\
   has_message_content (data r) v /\ truthy v = true).
Proof.
  unfold_parser.
  case_value (data r) as items fields; cbn; try refute.
  destruct (lookup "response" fields) as [x | ] eqn:Ex; cbn.
  - destruct (truthy x) eqn:Tx; cbn.
    + intros H. injection H as <-. left. split; [ | exact Tx].
      exists fields. split; [reflexivity | exact Ex].
    + destruct (lookup "message" fields) as [m | ] eqn:Em; cbn; try refute.
      case_value m as mitems mfields; cbn; try refute.
      destruct (lookup "content" mfields) as [c | ] eqn:Ec; cbn; try refute.
      destruct (truthy c) eqn:Tc; cbn; try refute.
      intros H. injection H as <-. right. repeat split.
      * intros w (fields' & Hf & Hw). injection Hf as <-.
        rewrite Ex in Hw. injection Hw as <-. exact Tx.
      * exists fields, mfields. repeat split; assumption.
      * exact Tc.
  - destruct (lookup "message" fields) as [m | ] eqn:Em; cbn; try refute.
    case_value m as mitems mfields; cbn; try refute.
    destruct (lookup "content" mfields) as [c | ] eqn:Ec; cbn; try refute.
    destruct (truthy c) eqn:Tc; cbn; try refute.
    intros H. injection H as <-. right. repeat split.
    + intros w (fields' & Hf & Hw). injection Hf as <-.
      rewrite Ex in Hw. discriminate Hw.
    + exists fields, mfields. repeat split; assumption.
    + exact Tc.
Qed.

Lemma parse_alternate_response (r : http_response) (v : value) :
  has_response (data r) v -> truthy v = true ->
  parseResponse r ollama = Return v.
Proof.
  intros (fields & Hd & Hv) Tv.
  unfold_parser. rewrite Hd. cbn. rewrite Hv. cbn. rewrite Tv. reflexivity.
Qed.

Lemma parse_alternate_message (r : http_response) (v : value) :
  (forall w, has_response (data r) w -> truthy w = false) ->
  has_message_content (data r) v -> truthy v = true ->
  parseResponse r ollama = Return v.
Proof.
  intros Hno (fields & mfields & Hd & Hm & Hc) Tv.
  unfold_parser. rewrite Hd in *. cbn.
  assert (Hr : truthy (match lookup "response" fields with
                       | Some x => x
                       | None => VUndefined
                       end) = false).
  { destruct (lookup "response" fields) as [x | ] eqn:Ex; [ | reflexivity].
    apply Hno. exists fields. split; [reflexivity | exact Ex]. }
  rewrite Hr. cbn. rewrite Hm. cbn. rewrite Hc. cbn.
  rewrite Tv. cbn. rewrite ?Hm, ?Hc. reflexivity.
Qed.

(** The alternate-format parser throws nothing but its own error. *)
Lemma parse_alternate_failure (r : http_response) (e : exn) :
  parseResponse r ollama = Throw e ->
  e = Error ("Invalid response format: " ++ interpolate (JSON_stringify (data r))).
Proof.
  unfold_parser.
  case_value (data r) as items fields; cbn;
    try (intros H; injection H as <-; reflexivity).
  destruct (lookup "response" fields) as [x | ] eqn:Ex; cbn.
  - destruct (truthy x) eqn:Tx; cbn; try refute.
    destruct (lookup "message" fields) as [m | ] eqn:Em; cbn;
      try (intros H; injection H as <-; reflexivity).
    case_value m as mitems mfields; cbn;
      try (intros H; injection H as <-; reflexivity).
    destruct (lookup "content" mfields) as [c | ] eqn:Ec; cbn;
      try (intros H; injection H as <-; reflexivity).
    destruct (truthy c) eqn:Tc; cbn; try refute.
    intros H; injection H as <-; reflexivity.
  - destruct (lookup "message" fields) as [m | ] eqn:Em; cbn;
      try (intros H; injection H as <-; reflexivity).
    case_value m as mitems mfields; cbn;
      try (intros H; injection H as <-; reflexivity).
    destruct (lookup "content" mfields) as [c | ] eqn:Ec; cbn;
      try (intros H; injection H as <-; reflexivity).
    destruct (truthy c) eqn:Tc; cbn; try refute.
    intros H; injection H as <-; reflexivity.
Qed.

(** A payload with neither field of the alternate format is rejected. *)
Lemma parse_alternate_no_shape (r : http_response) :
  (forall v, ~ has_response (data r) v) ->
  (forall v, ~ has_message_content (data r) v) ->
  parseResponse r ollama = invalid_format r.
Proof.
  intros Hr Hm.
  destruct (parseResponse r ollama) as [v | e] eqn:E.
  - apply parse_alternate_sound in E.
    destruct E as [[H _] | [_ [H _]]]; [elim (Hr v H) | elim (Hm v H)].
  - apply parse_alternate_failure in E. subst e. reflexivity.
Qed.

End Parsing.

Section ParsingClaims.
Import NosanaLLM.

(** The ways the primary-format parser fails: its own error, or the
    [TypeError] of reading [message] from a first choice that is [null]
    (or [undefined]). *)
Lemma parse_primary_failure (RT : JsRuntime) (r : http_response) (e : exn) :
  parseResponse r openai = Throw e ->
  e = Error ("Invalid response format: " ++ interpolate (JSON_stringify (data r))) \/
  (exists rest, get_prop (data r) "choices" = VArr (VNull :: rest) /\
                e = TypeError "Cannot read properties of null (reading 'message')") \/
  (exists rest, get_prop (data r) "choices" = VArr (VUndefined :: rest) /\
                e = TypeError "Cannot read properties of undefined (reading 'message')").
Proof.
  unfold_parser.
  case_value (data r) as items fields; cbn;
    try (intros H; injection H as <-; left; reflexivity).
  destruct (lookup "choices" fields) as [c | ] eqn:Ec; cbn;
    try (intros H; injection H as <-; left; reflexivity).
  case_value c as citems cfields; cbn;
    try (intros H; injection H as <-; left; reflexivity).
  destruct citems as [ | first rest]; cbn;
    try (intros H; injection H as <-; left; reflexivity).
  case_value first as fitems ffields; cbn;
    try (intros H; injection H as <-; left; reflexivity).
  - intros H; injection H as <-. right; right. exists rest. split; reflexivity.
  - intros H; injection H as <-. right; left. exists rest. split; reflexivity.
  - destruct (lookup "message" ffields) as [m | ] eqn:Em; cbn;
      try (intros H; injection H as <-; left; reflexivity).
    case_value m as mitems mfields; cbn;
      try (intros H; injection H as <-; left; reflexivity).
    destruct (lookup "content" mfields) as [x | ] eqn:Ex; cbn;
      try (intros H; injection H as <-; left; reflexivity).
    destruct (truthy x) eqn:Tx; cbn; try refute.
    intros H; injection H as <-; left; reflexivity.
Qed.

(** C4, as the specification states it, fails: a payload whose [response]
    field is the empty string has the field, and is rejected. *)
Lemma parse_alternate_rejects_empty_response :
  has_response (VObj [("response", VStr EmptyString)]) (VStr EmptyString) /\
  parseResponse (RT := node_runtime Scenario.no_env)
    {| status := 200; data := VObj [("response", VStr EmptyString)] |} ollama
  = Throw (Error ("Invalid response format: {" ++ Node.dquote ++ "response" ++ Node.dquote
                  ++ ":" ++ Node.dquote ++ Node.dquote ++ "}")).
Proof.
  split; [ | reflexivity].
  exists [("response", VStr EmptyString)]. split; reflexivity.
Qed.

(** C4 (amended).  The alternate-format parser returns [v] exactly when
    the payload has a truthy [response] field of value [v], or has no
    truthy [response] field and has a [message] object with a truthy
    [content] of value [v].  So a truthy [response] wins over
    [message.content], and an empty [response] does not count as present. *)
Theorem parse_alternate_iff (RT : JsRuntime) (r : http_response) (v : value) :
  (parseResponse r ollama = Return v <->
   (has_response (data r) v /\ truthy v = true) \/
   ((forall w, has_response (data r) w -> truthy w = false) /\
    has_message_content (data r) v /\ truthy v = true))
  /\ parseResponse {| status := 200; data := VObj [("response", VStr "hi")] |} ollama
     = Return (VStr "hi")
  /\ parseResponse {| status := 200;
                      data := VObj [("message", VObj [("content", VStr "hi")])] |} ollama
     = Return (VStr "hi")
  /\ parseResponse {| status := 200;
                      data := VObj [("message", VObj [("content", VStr "later")]);
                                    ("response", VStr "first")] |} ollama
     = Return (VStr "first").
Proof.
  split; [ | repeat split; reflexivity].
  split.
  - apply parse_alternate_sound.
  - intros [[H T] | [Hno [H T]]].
    + apply parse_alternate_response; assumption.
    + apply parse_alternate_message; assumption.
Qed.

(** C5, as the specification states it, fails: a content that is an empty
    array is neither non-empty nor a string, and the parser accepts the
    payload and returns the array. *)
Lemma parse_primary_accepts_empty_array :
  parseResponse (RT := node_runtime Scenario.no_env)
    {| status := 200; data := Scenario.completion (VArr []) |} openai
  = Return (VArr []) /\
  ~ (exists s, s <> EmptyString /\
               primary_shape (Scenario.completion (VArr [])) (VStr s)).
Proof.
  split; [reflexivity | ].
  intros (s & _ & fields & first & rest & mfields & Hd & Hc & Hm & Hx).
  injection Hd as <-. cbn in Hc. injection Hc as <- <-.
  cbn in Hm. injection Hm as <-. cbn in Hx. discriminate Hx.
Qed.

(** C5 (amended).  The primary-format parser returns [v] exactly when the
    payload is an object whose [choices] is a non-empty array, the first
    element of which is an object with a [message] object whose [content]
    is [v], and [v] is truthy; a string content is truthy exactly when it
    is non-empty.  The content is returned as it is, string or not. *)
Theorem parse_primary_iff (RT : JsRuntime) (r : http_response) (v : value) :
  (parseResponse r openai = Return v <->
   primary_shape (data r) v /\ truthy v = true)
  /\ (forall s, truthy (VStr s) = true <-> s <> EmptyString)
  /\ parseResponse {| status := 200; data := Scenario.completion (VStr "hi") |} openai
     = Return (VStr "hi").
Proof.
  split; [ | split; [ | reflexivity]].
  - split.
    + apply parse_primary_sound.
    + intros [H T]. apply parse_primary_complete; assumption.
  - intros s. simpl. rewrite negb_true_iff. apply String.eqb_neq.
Qed.

(** C6.  The payload [{choices:[null]}] has neither shape, and the
    primary-format parser does not fail with its invalid-format error on
    it: reading [message] from the [null] choice throws a [TypeError],
    whose message does not carry the payload. *)
Theorem parse_primary_null_choice (RT : JsRuntime) :
  (forall v, ~ primary_shape (VObj [("choices", VArr [VNull])]) v) /\
  (forall v, ~ has_response (VObj [("choices", VArr [VNull])]) v) /\
  (forall v, ~ has_message_content (VObj [("choices", VArr [VNull])]) v) /\
  parseResponse {| status := 200; data := VObj [("choices", VArr [VNull])] |} openai
  = Throw (TypeError "Cannot read properties of null (reading 'message')") /\
  parseResponse {| status := 200; data := VObj [("choices", VArr [VNull])] |} openai
  <> invalid_format {| status := 200; data := VObj [("choices", VArr [VNull])] |}.
Proof.
  repeat split.
  - intros v (fields & first & rest & mfields & Hd & Hc & _).
    injection Hd as <-. cbn in Hc. discriminate Hc.
  - intros v (fields & Hd & Hv). injection Hd as <-. cbn in Hv. discriminate Hv.
  - intros v (fields & mfields & Hd & Hm & _).
    injection Hd as <-. cbn in Hm. discriminate Hm.
  - discriminate.
Qed.

End ParsingClaims.

(** ** The fallback protocol *)

Section Protocol.
Import NosanaLLM.
Context {RT : JsRuntime}.
Variables (self : t) (net : Backend).

Lemma primary_is_not_generate (messages : list ChatMessage) (prompt : string) :
  calls_to (baseUrl self ++ "/api/generate")
    [primary_request self messages; alternate_generate_request self prompt] = 1.
Proof.
  unfold calls_to. simpl. rewrite eqb_append_prefix. simpl.
  rewrite String.eqb_refl. reflexivity.
Qed.

Lemma primary_is_not_chat (messages : list ChatMessage) :
  calls_to (baseUrl self ++ "/api/chat")
    [primary_request self messages; alternate_chat_request self messages] = 1.
Proof.
  unfold calls_to. simpl. rewrite eqb_append_prefix. simpl.
  rewrite String.eqb_refl. reflexivity.
Qed.

Lemma primary_alone (alt : string) (messages : list ChatMessage) :
  alt = "/api/generate" \/ alt = "/api/chat" ->
  calls_to (baseUrl self ++ alt) [primary_request self messages] = 0.
Proof.
  intros [-> | ->]; unfold calls_to; simpl; rewrite eqb_append_prefix; reflexivity.
Qed.

(** The single-turn fallback: one request, and whatever goes wrong is
    replaced by the fixed terminal error. *)
Lemma run_generateNativeOllama (prompt : string) (log : list request) :
  generateNativeOllama self prompt net log =
  (match net log (alternate_generate_request self prompt) with
   | Resolved r =>
       match parseResponse r ollama with
       | Return v => Return v
       | Throw _ => Throw both_formats_failed
       end
   | Rejected _ _ _ => Throw both_formats_failed
   end,
   (log ++ [alternate_generate_request self prompt])%list).
Proof.
  unfold generateNativeOllama, try_catch, bind, makeApiCall, axios_post, lift, throw.
  fold (alternate_generate_request self prompt).
  destruct (net log (alternate_generate_request self prompt)) as [r | m rq resp];
    cbv beta iota delta [settle].
  - destruct (parseResponse r ollama); reflexivity.
  - reflexivity.
Qed.

(** The multi-turn fallback: one request, and whatever goes wrong is
    wrapped with its message. *)
Lemma run_chatNativeOllama (messages : list ChatMessage) (log : list request) :
  chatNativeOllama self messages net log =
  (match net log (alternate_chat_request self messages) with
   | Resolved r =>
       match parseResponse r ollama with
       | Return v => Return v
       | Throw e => Throw (native_chat_failed e)
       end
   | Rejected m rq resp => Throw (native_chat_failed (AxiosError m rq resp))
   end,
   (log ++ [alternate_chat_request self messages])%list).
Proof.
  unfold chatNativeOllama, try_catch, bind, makeApiCall, axios_post, lift, throw.
  fold (alternate_chat_request self messages).
  destruct (net log (alternate_chat_request self messages)) as [r | m rq resp];
    cbv beta iota delta [settle].
  - destruct (parseResponse r ollama); reflexivity.
  - reflexivity.
Qed.

(** A primary request answered with an HTTP error status. *)
Lemma run_generate_http_error (prompt : string) (log : list request)
    (m : string) (rq : bool) (resp : http_response) :
  net log (primary_request self (user_message prompt)) = Rejected m rq (Some resp) ->
  generate self prompt net log =
  if fallback_status (status resp)
  then generateNativeOllama self prompt net
         (log ++ [primary_request self (user_message prompt)])%list
  else (Throw (backend_error resp),
        (log ++ [primary_request self (user_message prompt)])%list).
Proof.
  intros H.
  unfold generate, try_catch, bind, makeApiCall, axios_post.
  fold (user_message prompt). fold (primary_request self (user_message prompt)).
  rewrite H. simpl. unfold handleApiError. simpl.
  unfold fallback_status. destruct ((status resp =? 404) || (status resp =? 405))%Z;
    reflexivity.
Qed.

Lemma run_chat_http_error (messages : list ChatMessage) (log : list request)
    (m : string) (rq : bool) (resp : http_response) :
  net log (primary_request self messages) = Rejected m rq (Some resp) ->
  chat self messages net log =
  if fallback_status (status resp)
  then chatNativeOllama self messages net (log ++ [primary_request self messages])%list
  else (Throw (backend_error resp), (log ++ [primary_request self messages])%list).
Proof.
  intros H.
  unfold chat, try_catch, bind, makeApiCall, axios_post.
  fold (primary_request self messages).
  rewrite H. simpl. unfold handleApiError. simpl.
  unfold fallback_status. destruct ((status resp =? 404) || (status resp =? 405))%Z;
    reflexivity.
Qed.

Lemma fallback_status_spec (code : Z) :
  fallback_status code = true <-> code = 404%Z \/ code = 405%Z.
Proof.
  unfold fallback_status. rewrite orb_true_iff, !Z.eqb_eq. reflexivity.
Qed.

Lemma snd_generateNativeOllama (prompt : string) (log : list request) :
  snd (generateNativeOllama self prompt net log)
  = (log ++ [alternate_generate_request self prompt])%list.
Proof. rewrite run_generateNativeOllama. reflexivity. Qed.

Lemma snd_chatNativeOllama (messages : list ChatMessage) (log : list request) :
  snd (chatNativeOllama self messages net log)
  = (log ++ [alternate_chat_request self messages])%list.
Proof. rewrite run_chatNativeOllama. reflexivity. Qed.

End Protocol.

Lemma length_append (p s : string) :
  String.length (p ++ s) = String.length p + String.length s.
Proof.
  induction p as [ | c p IH]; simpl; [reflexivity | rewrite IH; reflexivity].
Qed.

Lemma append_not_self (p s : string) : p <> EmptyString -> p ++ s <> s.
Proof.
  intros Hp H. apply (f_equal String.length) in H.
  rewrite length_append in H.
  destruct p; [apply Hp; reflexivity | simpl in H; lia].
Qed.

Section ProtocolClaims.
Import NosanaLLM.

(** C1.  When the primary request of [generate] or [chat] is answered with
    an HTTP error status, the alternate endpoint is called once if the
    status is 404 or 405, with the same model and prompt or messages, and
    not at all otherwise; for every other status the call throws the
    backend error, which carries the status and the serialized body, after
    the primary request alone. *)
Theorem fallback_exactly_on_404_405 (RT : JsRuntime) (self : t) (net : Backend)
    (log : list request) (m : string) (rq : bool) (resp : http_response) :
  (forall prompt : string,
      net log (primary_request self (user_message prompt)) = Rejected m rq (Some resp) ->
      exists new : list request,
        snd (generate self prompt net log) = (log ++ new)%list /\
        (calls_to (baseUrl self ++ "/api/generate") new = 1
         <-> status resp = 404%Z \/ status resp = 405%Z) /\
        (status resp = 404%Z \/ status resp = 405%Z ->
         new = [primary_request self (user_message prompt);
                alternate_generate_request self prompt]) /\
        (status resp <> 404%Z -> status resp <> 405%Z ->
         fst (generate self prompt net log) = Throw (backend_error resp) /\
         new = [primary_request self (user_message prompt)] /\
         calls_to (baseUrl self ++ "/api/generate") new = 0)) /\
  (forall messages : list ChatMessage,
      net log (primary_request self messages) = Rejected m rq (Some resp) ->
      exists new : list request,
        snd (chat self messages net log) = (log ++ new)%list /\
        (calls_to (baseUrl self ++ "/api/chat") new = 1
         <-> status resp = 404%Z \/ status resp = 405%Z) /\
        (status resp = 404%Z \/ status resp = 405%Z ->
         new = [primary_request self messages;
                alternate_chat_request self messages]) /\
        (status resp <> 404%Z -> status resp <> 405%Z ->
         fst (chat self messages net log) = Throw (backend_error resp) /\
         new = [primary_request self messages] /\
         calls_to (baseUrl self ++ "/api/chat") new = 0)).
Proof.
  split.
  - intros prompt H. rewrite (run_generate_http_error self net prompt log H).
    destruct (fallback_status (status resp)) eqn:F.
    + exists [primary_request self (user_message prompt);
              alternate_generate_request self prompt].
      rewrite snd_generateNativeOllama, <- app_assoc.
      split; [reflexivity | split; [ | split]].
      * split; intros _; [apply fallback_status_spec; exact F | ].
        apply primary_is_not_generate.
      * reflexivity.
      * intros N4 N5. apply fallback_status_spec in F. destruct F; contradiction.
    + exists [primary_request self (user_message prompt)].
      assert (Z0 : calls_to (baseUrl self ++ "/api/generate")
                     [primary_request self (user_message prompt)] = 0)
        by (apply primary_alone; left; reflexivity).
      split; [reflexivity | split; [ | split]].
      * rewrite Z0. split; [discriminate | ].
        intros S. apply fallback_status_spec in S. rewrite S in F. discriminate F.
      * intros S. apply fallback_status_spec in S. rewrite S in F. discriminate F.
      * intros _ _. repeat split. exact Z0.
  - intros messages H. rewrite (run_chat_http_error self net messages log H).
    destruct (fallback_status (status resp)) eqn:F.
    + exists [primary_request self messages; alternate_chat_request self messages].
      rewrite snd_chatNativeOllama, <- app_assoc.
      split; [reflexivity | split; [ | split]].
      * split; intros _; [apply fallback_status_spec; exact F | ].
        apply primary_is_not_chat.
      * reflexivity.
      * intros N4 N5. apply fallback_status_spec in F. destruct F; contradiction.
    + exists [primary_request self messages].
      assert (Z0 : calls_to (baseUrl self ++ "/api/chat")
                     [primary_request self messages] = 0)
        by (apply primary_alone; right; reflexivity).
      split; [reflexivity | split; [ | split]].
      * rewrite Z0. split; [discriminate | ].
        intros S. apply fallback_status_spec in S. rewrite S in F. discriminate F.
      * intros S. apply fallback_status_spec in S. rewrite S in F. discriminate F.
      * intros _ _. repeat split. exact Z0.
Qed.

Lemma fallback_exactly_on_404_405_witness :
  exists new : list request,
    snd (generate (RT := node_runtime Scenario.no_env) Scenario.client "Hi"
           Scenario.net_500 [])
    = ([] ++ new)%list /\
    (calls_to ("http://host" ++ "/api/generate") new = 1
     <-> 500%Z = 404%Z \/ 500%Z = 405%Z) /\
    (500%Z = 404%Z \/ 500%Z = 405%Z ->
     new = [primary_request Scenario.client (user_message "Hi");
            alternate_generate_request Scenario.client "Hi"]) /\
    (500%Z <> 404%Z -> 500%Z <> 405%Z ->
     fst (generate (RT := node_runtime Scenario.no_env) Scenario.client "Hi"
            Scenario.net_500 [])
     = Throw (backend_error (RT := node_runtime Scenario.no_env)
                {| status := 500; data := VObj [("error", VStr "overloaded")] |}) /\
     new = [primary_request Scenario.client (user_message "Hi")] /\
     calls_to ("http://host" ++ "/api/generate") new = 0).
Proof.
  apply (proj1 (fallback_exactly_on_404_405 (node_runtime Scenario.no_env)
                  Scenario.client Scenario.net_500 []
                  "Request failed with status code 500" true
                  {| status := 500; data := VObj [("error", VStr "overloaded")] |})).
  reflexivity.
Defined.

Lemma starts_with_refl (s : string) : starts_with s s = true.
Proof.
  induction s as [ | c s IH]; simpl; [reflexivity | ].
  rewrite Ascii.eqb_refl. exact IH.
Qed.

Lemma includes_suffix (p s : string) : includes (p ++ s) s = true.
Proof.
  induction p as [ | c p IH].
  - destruct s; simpl; [reflexivity | ].
    rewrite Ascii.eqb_refl, starts_with_refl. reflexivity.
  - change (includes (String c p ++ s) s)
      with (starts_with (String c (p ++ s)) s || includes (p ++ s) s).
    rewrite IH. apply orb_true_r.
Qed.

(** C7, as the specification states it, fails for the single-turn call:
    the alternate request is refused with a message of its own, and the
    error [generate] throws does not contain that message. *)
Lemma both_formats_failed_drops_message :
  generate (RT := node_runtime Scenario.no_env) Scenario.client "Hi"
    Scenario.net_404_down []
  = (Throw (Error "Both API formats failed. Check Nosana documentation for correct endpoint."),
     [primary_request Scenario.client (user_message "Hi");
      alternate_generate_request Scenario.client "Hi"]) /\
  alternate_fails (RT := node_runtime Scenario.no_env) Scenario.net_404_down
    [primary_request Scenario.client (user_message "Hi")]
    (alternate_generate_request Scenario.client "Hi")
    (AxiosError "connect ECONNREFUSED" true None) /\
  includes "Both API formats failed. Check Nosana documentation for correct endpoint."
    "connect ECONNREFUSED" = false.
Proof.
  split; [reflexivity | split; [left; reflexivity | reflexivity]].
Qed.

(** C7 (amended).  When the primary request is answered with 404 or 405
    and the alternate attempt fails with [e], the call makes the two
    requests and no more and throws a new error, not [e]: [generate] the
    both-formats-failed error, whose message is fixed and holds nothing of
    [e]; [chat] the native-chat-failed error, whose message ends with the
    message of [e]. *)
Theorem fallback_failure_is_terminal (RT : JsRuntime) (self : t) (net : Backend)
    (log : list request) (m : string) (rq : bool) (resp : http_response) (e : exn) :
  status resp = 404%Z \/ status resp = 405%Z ->
  (forall prompt : string,
      net log (primary_request self (user_message prompt)) = Rejected m rq (Some resp) ->
      alternate_fails net (log ++ [primary_request self (user_message prompt)])%list
        (alternate_generate_request self prompt) e ->
      generate self prompt net log
      = (Throw both_formats_failed,
         (log ++ [primary_request self (user_message prompt);
                  alternate_generate_request self prompt])%list) /\
      both_formats_failed <> e) /\
  (forall messages : list ChatMessage,
      net log (primary_request self messages) = Rejected m rq (Some resp) ->
      alternate_fails net (log ++ [primary_request self messages])%list
        (alternate_chat_request self messages) e ->
      chat self messages net log
      = (Throw (native_chat_failed e),
         (log ++ [primary_request self messages;
                  alternate_chat_request self messages])%list) /\
      native_chat_failed e <> e /\
      exn_message (native_chat_failed e) = "Native chat also failed: " ++ exn_message e /\
      includes (exn_message (native_chat_failed e)) (exn_message e) = true).
Proof.
  intros S. apply fallback_status_spec in S. split.
  - intros prompt H A. rewrite (run_generate_http_error self net prompt log H), S.
    rewrite run_generateNativeOllama, <- app_assoc. simpl app.
    destruct A as [A | (r & A & P)].
    + destruct (net _ (alternate_generate_request self prompt)) as [r | m' rq' resp'];
        simpl in A; [discriminate A | ].
      injection A as <-. split; [reflexivity | discriminate].
    + rewrite A, P. split; [reflexivity | ].
      apply parse_alternate_failure in P. subst e. discriminate.
  - intros messages H A. rewrite (run_chat_http_error self net messages log H), S.
    rewrite run_chatNativeOllama, <- app_assoc. simpl app.
    assert (I : includes (exn_message (native_chat_failed e)) (exn_message e) = true)
      by apply (includes_suffix "Native chat also failed: ").
    assert (N : native_chat_failed e <> e).
    { intros Heq. apply (f_equal exn_message) in Heq.
      change (exn_message (native_chat_failed e))
        with ("Native chat also failed: " ++ exn_message e) in Heq.
      revert Heq. apply append_not_self. discriminate. }
    destruct A as [A | (r & A & P)].
    + destruct (net _ (alternate_chat_request self messages)) as [r | m' rq' resp'];
        simpl in A; [discriminate A | ].
      injection A as <-. repeat split; [exact N | exact I].
    + rewrite A, P. repeat split; [exact N | exact I].
Qed.

Lemma fallback_failure_is_terminal_witness :
  chat (RT := node_runtime Scenario.no_env) Scenario.client Scenario.history
    Scenario.net_404_down []
  = (Throw (Error "Native chat also failed: connect ECONNREFUSED"),
     [primary_request Scenario.client Scenario.history;
      alternate_chat_request Scenario.client Scenario.history]).
Proof.
  apply (proj2 (fallback_failure_is_terminal (node_runtime Scenario.no_env)
                  Scenario.client Scenario.net_404_down []
                  "Request failed with status code 404" true
                  {| status := 404; data := Scenario.not_found |}
                  (AxiosError "connect ECONNREFUSED" true None)
                  (or_introl eq_refl))
          Scenario.history eq_refl (or_introl eq_refl)).
Defined.

(** C10.  When the primary request of [generate] is answered with 404 or
    405 and the alternate request succeeds with a payload that has neither
    a [response] field nor a [message.content] field, the caller gets the
    both-formats-failed error: the parser's invalid-format error is caught
    by the fallback and replaced. *)
Theorem fallback_parse_failure_is_terminal (RT : JsRuntime) (self : t) (net : Backend)
    (log : list request) (prompt m : string) (rq : bool) (resp r : http_response) :
  net log (primary_request self (user_message prompt)) = Rejected m rq (Some resp) ->
  status resp = 404%Z \/ status resp = 405%Z ->
  net (log ++ [primary_request self (user_message prompt)])%list
    (alternate_generate_request self prompt) = Resolved r ->
  (forall v, ~ has_response (data r) v) ->
  (forall v, ~ has_message_content (data r) v) ->
  parseResponse r ollama = invalid_format r /\
  generate self prompt net log
  = (Throw both_formats_failed,
     (log ++ [primary_request self (user_message prompt);
              alternate_generate_request self prompt])%list) /\
  Throw both_formats_failed <> invalid_format r.
Proof.
  intros H S A Hr Hm. apply fallback_status_spec in S.
  pose proof (parse_alternate_no_shape r Hr Hm) as P.
  split; [exact P | split].
  - rewrite (run_generate_http_error self net prompt log H), S.
    rewrite run_generateNativeOllama, <- app_assoc. simpl app.
    rewrite A, P. reflexivity.
  - discriminate.
Qed.

Lemma fallback_parse_failure_is_terminal_witness :
  parseResponse (RT := node_runtime Scenario.no_env)
    {| status := 200; data := VObj [] |} ollama
  = Throw (Error "Invalid response format: {}") /\
  generate (RT := node_runtime Scenario.no_env) Scenario.client "Hi"
    Scenario.net_404_empty []
  = (Throw (Error "Both API formats failed. Check Nosana documentation for correct endpoint."),
     [primary_request Scenario.client (user_message "Hi");
      alternate_generate_request Scenario.client "Hi"]) /\
  Throw (Error "Both API formats failed. Check Nosana documentation for correct endpoint.")
  <> Throw (A := value) (Error "Invalid response format: {}").
Proof.
  apply (@fallback_parse_failure_is_terminal (node_runtime Scenario.no_env)
           Scenario.client Scenario.net_404_empty [] "Hi"
           "Request failed with status code 404" true
           {| status := 404; data := Scenario.not_found |}
           {| status := 200; data := VObj [] |}
           eq_refl (or_introl eq_refl) eq_refl).
  - intros v (fields & Hd & Hv). injection Hd as <-. discriminate Hv.
  - intros v (fields & mfields & Hd & Hv & _). injection Hd as <-. discriminate Hv.
Defined.

(** The fallback at work: one request to each endpoint, and the text of
    the native answer. *)
Lemma fallback_succeeds :
  generate (RT := node_runtime Scenario.no_env) Scenario.client "Hi"
    Scenario.net_404_native []
  = (Return (VStr "hi"),
     [primary_request Scenario.client (user_message "Hi");
      alternate_generate_request Scenario.client "Hi"]) /\
  chat (RT := node_runtime Scenario.no_env) Scenario.client Scenario.history
    Scenario.net_404_native []
  = (Return (VStr "hello"),
     [primary_request Scenario.client Scenario.history;
      alternate_chat_request Scenario.client Scenario.history]).
Proof. split; reflexivity. Qed.

(** Seen from [generate], the [TypeError] of the primary-format parser on
    [{choices:[null]}] comes out as a request error. *)
Lemma generate_null_choice :
  generate (RT := node_runtime Scenario.no_env) Scenario.client "Hi"
    (Scenario.network [("http://host/v1/chat/completions",
                        Scenario.http_ok (VObj [("choices", VArr [VNull])]))]) []
  = (Throw (Error "Request failed: Cannot read properties of null (reading 'message')"),
     [primary_request Scenario.client (user_message "Hi")]).
Proof. reflexivity. Qed.

End ProtocolClaims.

(** ** The search client *)

Section Search.
Import BrightDataScraper.
Context {RT : JsRuntime}.
Variables (self : t) (net : Backend).

Lemma formatRawResults_falsy (d : value) :
  truthy d = false -> formatRawResults d = Return [].
Proof. intros T. unfold formatRawResults. rewrite T. reflexivity. Qed.

Lemma data_string_defined (d : value) :
  truthy d = true -> exists text, data_string d = Some text.
Proof.
  intros T.
  destruct (data_string d) as [text | ] eqn:E; [exists text; reflexivity | ].
  exfalso. destruct d; try discriminate T; simpl in E; try discriminate E;
    revert E; apply JSON_stringify_indent2_defined; discriminate.
Qed.

Lemma formatRawResults_truthy (d : value) (text : string) :
  truthy d = true -> data_string d = Some text ->
  formatRawResults d
  = Return [{| title := "Search Results";
               url := "https://www.google.com";
               snippet := js_substring text 0 5000 |}].
Proof. intros T E. unfold formatRawResults. rewrite T, E. reflexivity. Qed.

(** [formatRawResults] throws nothing. *)
Lemma formatRawResults_returns (d : value) :
  exists results, formatRawResults d = Return results.
Proof.
  destruct (truthy d) eqn:T.
  - destruct (data_string_defined d T) as [text E].
    rewrite (formatRawResults_truthy d T E). eexists; reflexivity.
  - rewrite (formatRawResults_falsy d T). eexists; reflexivity.
Qed.

(** What [searchWeb] does, case by case. *)
Lemma run_searchWeb (query : string) (limit : option Z) (log : list request) :
  searchWeb self query limit net log =
  match encodeURIComponent query with
  | Throw _ => (Return [], log)
  | Return encoded =>
      (match net log (search_request self (search_url encoded)) with
       | Resolved r =>
           match formatRawResults (data r) with
           | Return results => Return results
           | Throw _ => Return []
           end
       | Rejected _ _ _ => Return []
       end,
       (log ++ [search_request self (search_url encoded)])%list)
  end.
Proof.
  unfold searchWeb, try_catch, bind, lift, axios_post, ret.
  destruct (encodeURIComponent query) as [encoded | e]; [ | reflexivity].
  destruct (net log (search_request self (search_url encoded))) as [r | m rq resp];
    cbv beta iota delta [settle]; [ | reflexivity].
  destruct (formatRawResults (data r)); reflexivity.
Qed.

End Search.

Section SearchClaims.
Import BrightDataScraper.

(** C8.  [searchWeb] returns a sequence for every query, on every
    network; when the query cannot be encoded or the request is rejected,
    with a response (401, 403, any status) or without one, the sequence is
    empty, as it is for a response with an empty body. *)
Theorem searchWeb_never_raises (RT : JsRuntime) (self : t) (net : Backend)
    (query : string) (limit : option Z) (log : list request) :
  (exists results, fst (searchWeb self query limit net log) = Return results) /\
  (forall e, encodeURIComponent query = Throw e ->
             searchWeb self query limit net log = (Return [], log)) /\
  (forall encoded m rq resp,
      encodeURIComponent query = Return encoded ->
      net log (search_request self (search_url encoded)) = Rejected m rq resp ->
      searchWeb self query limit net log
      = (Return [], (log ++ [search_request self (search_url encoded)])%list)) /\
  (forall encoded r,
      encodeURIComponent query = Return encoded ->
      net log (search_request self (search_url encoded)) = Resolved r ->
      truthy (data r) = false ->
      searchWeb self query limit net log
      = (Return [], (log ++ [search_request self (search_url encoded)])%list)).
Proof.
  rewrite run_searchWeb. repeat split.
  - destruct (encodeURIComponent query) as [encoded | e]; [ | eexists; reflexivity].
    destruct (net log (search_request self (search_url encoded))) as [r | m rq resp];
      [ | eexists; reflexivity].
    destruct (formatRawResults (data r)); eexists; reflexivity.
  - intros e E. rewrite E. reflexivity.
  - intros encoded m rq resp E N. rewrite E, N. reflexivity.
  - intros encoded r E N T. rewrite E, N, (formatRawResults_falsy _ T). reflexivity.
Qed.

Lemma searchWeb_never_raises_witness :
  searchWeb (RT := node_runtime Scenario.no_env) Scenario.scraper "rocq prover" None
    Scenario.net_401 []
  = (Return [], ([] ++ [search_request Scenario.scraper (search_url "rocq%20prover")])%list).
Proof.
  apply (proj1 (proj2 (proj2
           (@searchWeb_never_raises (node_runtime Scenario.no_env) Scenario.scraper
              Scenario.net_401 "rocq prover" None [])))
           "rocq%20prover" "Request failed with status code 401" true
           (Some {| status := 401; data := VStr "Unauthorized" |})
           eq_refl eq_refl).
Defined.

(** C9, as the specification states it, fails: a successful response with
    an empty body gives no result at all. *)
Lemma searchWeb_empty_body_no_result :
  Scenario.net_page (VStr EmptyString) []
    (search_request Scenario.scraper (search_url "rocq%20prover"))
  = Resolved {| status := 200; data := VStr EmptyString |} /\
  searchWeb (RT := node_runtime Scenario.no_env) Scenario.scraper "rocq prover" None
    (Scenario.net_page (VStr EmptyString)) []
  = (Return [], [search_request Scenario.scraper (search_url "rocq%20prover")]).
Proof. split; reflexivity. Qed.

(** C9 (amended).  For every successful provider response with a truthy
    body, [searchWeb] returns exactly one result, with the fixed title and
    URL, whose snippet is the first 5000 characters of the body (of its
    indented serialization when it is not a string), all of it when it is
    shorter; for a falsy body (empty string, [null], [0], [false]) it
    returns the empty sequence.  The [limit] argument changes nothing. *)
Theorem searchWeb_success (RT : JsRuntime) (self : t) (net : Backend)
    (query encoded : string) (limit : option Z) (log : list request)
    (r : http_response) :
  encodeURIComponent query = Return encoded ->
  net log (search_request self (search_url encoded)) = Resolved r ->
  (truthy (data r) = true ->
   exists text rest,
     data_string (data r) = Some text /\
     searchWeb self query limit net log
     = (Return [{| title := "Search Results";
                   url := "https://www.google.com";
                   snippet := js_substring text 0 5000 |}],
        (log ++ [search_request self (search_url encoded)])%list) /\
     text = js_substring text 0 5000 ++ rest /\
     String.length (js_substring text 0 5000) = Nat.min 5000 (String.length text) /\
     String.length (js_substring text 0 5000) <= 5000) /\
  (truthy (data r) = false ->
   searchWeb self query limit net log
   = (Return [], (log ++ [search_request self (search_url encoded)])%list)) /\
  (forall limit' : option Z,
      searchWeb self query limit' net log = searchWeb self query limit net log).
Proof.
  intros E N. repeat split.
  - intros T. destruct (data_string_defined (data r) T) as [text D].
    destruct (js_substring_prefix text 5000) as [rest [P L]].
    change (Z.of_nat 5000) with 5000%Z in P, L.
    exists text, rest. repeat split.
    + exact D.
    + rewrite run_searchWeb, E, N, (formatRawResults_truthy _ T D). reflexivity.
    + exact P.
    + exact L.
    + rewrite L. apply Nat.le_min_l.
  - intros T. rewrite run_searchWeb, E, N, (formatRawResults_falsy _ T). reflexivity.
Qed.

Lemma searchWeb_success_witness :
  exists text rest,
    data_string (RT := node_runtime Scenario.no_env)
      (VObj [("organic", VArr [VStr "rocq-prover.org"])]) = Some text /\
    searchWeb (RT := node_runtime Scenario.no_env) Scenario.scraper "rocq prover" None
      (Scenario.net_page (VObj [("organic", VArr [VStr "rocq-prover.org"])])) []
    = (Return [{| title := "Search Results";
                  url := "https://www.google.com";
                  snippet := js_substring text 0 5000 |}],
       ([] ++ [search_request Scenario.scraper (search_url "rocq%20prover")])%list) /\
    text = js_substring text 0 5000 ++ rest /\
    String.length (js_substring text 0 5000) = Nat.min 5000 (String.length text) /\
    String.length (js_substring text 0 5000) <= 5000.
Proof.
  apply (proj1
           (@searchWeb_success (node_runtime Scenario.no_env) Scenario.scraper
              (Scenario.net_page (VObj [("organic", VArr [VStr "rocq-prover.org"])]))
              "rocq prover" "rocq%20prover" None []
              {| status := 200; data := VObj [("organic", VArr [VStr "rocq-prover.org"])] |}
              eq_refl eq_refl)).
  reflexivity.
Defined.

(** A body of 6000 characters comes back as one snippet of 5000. *)
Lemma searchWeb_truncates_long_body :
  String.length Scenario.long_text = 6000 /\
  match searchWeb (RT := node_runtime Scenario.no_env) Scenario.scraper "rocq prover" None
          (Scenario.net_page (VStr Scenario.long_text)) [] with
  | (Return [result], _) =>
      String.length (snippet result) = 5000 /\
      title result = "Search Results" /\ url result = "https://www.google.com"
  | _ => False
  end.
Proof. vm_compute. repeat split. Qed.

End SearchClaims.

(** * Further properties of the code *)

(** ** Base address and model *)

Section MoreStrings.

Lemma append_assoc (a b c : string) : (a ++ b) ++ c = a ++ b ++ c.
Proof.
  induction a as [ | x a IH]; simpl; [reflexivity | rewrite IH; reflexivity].
Qed.

Lemma append_empty_r (a : string) : a ++ EmptyString = a.
Proof.
  induction a as [ | x a IH]; simpl; [reflexivity | rewrite IH; reflexivity].
Qed.

Lemma all_slashes_append (s t : string) :
  all_slashes (s ++ t) = all_slashes s && all_slashes t.
Proof.
  induction s as [ | c s IH]; simpl; [reflexivity | ].
  rewrite IH. apply andb_assoc.
Qed.

Lemma replace_trailing_slashes_all (t : string) :
  all_slashes t = true -> replace_trailing_slashes t = EmptyString.
Proof.
  destruct t as [ | c t]; [reflexivity | ].
  intros H.
  change (replace_trailing_slashes (String c t))
    with (if all_slashes (String c t) then EmptyString
          else String c (replace_trailing_slashes t)).
  rewrite H. reflexivity.
Qed.

(** A run of slashes appended to an address is removed whole. *)
Lemma replace_trailing_slashes_append (s t : string) :
  all_slashes t = true ->
  replace_trailing_slashes (s ++ t) = replace_trailing_slashes s.
Proof.
  intros H. induction s as [ | c s IH].
  - simpl. apply replace_trailing_slashes_all; exact H.
  - change (replace_trailing_slashes (String c s ++ t))
      with (if all_slashes (String c s ++ t) then EmptyString
            else String c (replace_trailing_slashes (s ++ t))).
    change (replace_trailing_slashes (String c s))
      with (if all_slashes (String c s) then EmptyString
            else String c (replace_trailing_slashes s)).
    rewrite all_slashes_append, H, andb_true_r, IH. reflexivity.
Qed.

Lemma ends_with_api_no_slash (x : string) : ends_with (x ++ "/api") "/" = false.
Proof.
  induction x as [ | c x IH]; [reflexivity | ].
  change (ends_with (String c x ++ "/api") "/")
    with ((String c (x ++ "/api") =? "/") || ends_with (x ++ "/api") "/").
  rewrite IH, orb_false_r. apply String.eqb_neq. intros H.
  apply (f_equal String.length) in H. simpl in H. rewrite length_append in H.
  simpl in H. lia.
Qed.

Lemma replace_trailing_api_append (x : string) :
  replace_trailing_api (x ++ "/api") = x.
Proof.
  induction x as [ | c x IH]; [reflexivity | ].
  change (replace_trailing_api (String c x ++ "/api"))
    with (if String c (x ++ "/api") =? "/api" then EmptyString
          else String c (replace_trailing_api (x ++ "/api"))).
  rewrite IH.
  assert (E : (String c (x ++ "/api") =? "/api") = false).
  { apply String.eqb_neq. intros H. apply (f_equal String.length) in H.
    simpl in H. rewrite length_append in H. simpl in H. lia. }
  rewrite E. reflexivity.
Qed.

(** What the first replacement removes is a run of slashes. *)
Lemma replace_trailing_slashes_split (s : string) :
  exists t, s = replace_trailing_slashes s ++ t /\ all_slashes t = true.
Proof.
  induction s as [ | c s IH].
  - exists EmptyString. split; reflexivity.
  - change (replace_trailing_slashes (String c s))
      with (if all_slashes (String c s) then EmptyString
            else String c (replace_trailing_slashes s)).
    destruct (all_slashes (String c s)) eqn:A.
    + exists (String c s). split; [reflexivity | exact A].
    + destruct IH as [t [E T]]. exists t. split; [ | exact T].
      simpl. f_equal. exact E.
Qed.

(** What the second replacement removes is one [/api]. *)
Lemma replace_trailing_api_split (s : string) :
  replace_trailing_api s = s \/ s = replace_trailing_api s ++ "/api".
Proof.
  induction s as [ | c s IH]; [left; reflexivity | ].
  change (replace_trailing_api (String c s))
    with (if String c s =? "/api" then EmptyString
          else String c (replace_trailing_api s)).
  destruct (String c s =? "/api") eqn:E.
  - right. apply String.eqb_eq in E. exact E.
  - destruct IH as [IH | IH].
    + left. rewrite IH. reflexivity.
    + right. simpl. f_equal. exact IH.
Qed.

End MoreStrings.

Section MoreConstruction.
Import NosanaLLM.

(** X1.  Trailing slashes do not matter: an address followed by any run of
    slashes normalizes to what the address alone normalizes to. *)
Theorem normalize_ignores_trailing_slashes (x slashes : string) :
  all_slashes slashes = true ->
  normalize (x ++ slashes) = normalize x.
Proof.
  intros H. unfold normalize.
  rewrite (replace_trailing_slashes_append x slashes H). reflexivity.
Qed.

Lemma normalize_ignores_trailing_slashes_witness :
  normalize ("http://host:11434" ++ "///") = normalize "http://host:11434".
Proof.
  apply (normalize_ignores_trailing_slashes "http://host:11434" "///").
  reflexivity.
Defined.

(** X2.  An address given with the API segment, and any run of slashes
    after it, normalizes to exactly what precedes the segment, whatever
    that is. *)
Theorem normalize_strips_api_segment (x slashes : string) :
  all_slashes slashes = true ->
  normalize (x ++ "/api" ++ slashes) = x.
Proof.
  intros H. rewrite <- append_assoc. unfold normalize.
  rewrite (replace_trailing_slashes_append (x ++ "/api") slashes H).
  rewrite (proj2 (replace_trailing_slashes_fixed (x ++ "/api"))
             (ends_with_api_no_slash x)).
  apply replace_trailing_api_append.
Qed.

Lemma normalize_strips_api_segment_witness :
  normalize ("https://node.example/v2" ++ "/api" ++ "//") = "https://node.example/v2".
Proof.
  apply (normalize_strips_api_segment "https://node.example/v2" "//").
  reflexivity.
Defined.

(** X3.  Normalization only cuts at the end: the address is its normalized
    form followed by a run of slashes, or by [/api] and a run of slashes.
    Scheme, host, port and any earlier path are kept as given. *)
Theorem normalize_removes_only_suffix (x : string) :
  exists slashes,
    all_slashes slashes = true /\
    (x = normalize x ++ slashes \/ x = normalize x ++ "/api" ++ slashes).
Proof.
  destruct (replace_trailing_slashes_split x) as [t [E T]].
  exists t. split; [exact T | ]. unfold normalize.
  destruct (replace_trailing_api_split (replace_trailing_slashes x)) as [A | A].
  - left. rewrite A. exact E.
  - right. rewrite <- append_assoc, <- A. exact E.
Qed.

(** X4.  The model of a constructed client is never the empty string,
    whatever the argument and the environment are. *)
Theorem model_never_empty (RT : JsRuntime) (url : string) (arg : option string) :
  model (constructor url arg) <> EmptyString.
Proof.
  unfold constructor, or_default, or_else. simpl.
  destruct arg as [a | ].
  - destruct (a =? EmptyString) eqn:Ea.
    + destruct (process_env "NOSANA_MODEL") as [e | ]; [ | discriminate].
      destruct (e =? EmptyString) eqn:Ee; [discriminate | ].
      apply String.eqb_neq; exact Ee.
    + rewrite Ea. apply String.eqb_neq; exact Ea.
  - destruct (process_env "NOSANA_MODEL") as [e | ]; [ | discriminate].
    destruct (e =? EmptyString) eqn:Ee; [discriminate | ].
    apply String.eqb_neq; exact Ee.
Qed.

End MoreConstruction.

(** ** The parsers, beyond the accepted shapes *)

Section MoreParsing.
Import NosanaLLM.

(** What the primary-format parser throws has neither a [response] nor a
    [request]. *)
Lemma parse_primary_error_plain (RT : JsRuntime) (r : http_response) (e : exn) :
  parseResponse r openai = Throw e ->
  exn_response e = None /\ exn_request e = false.
Proof.
  intros H. apply parse_primary_failure in H.
  destruct H as [-> | [(rest & _ & ->) | (rest & _ & ->)]]; split; reflexivity.
Qed.

Lemma parse_truthy (RT : JsRuntime) (r : http_response) (fmt : format) (v : value) :
  parseResponse r fmt = Return v -> truthy v = true.
Proof.
  destruct fmt; intros H.
  - apply parse_primary_sound in H. apply H.
  - apply parse_alternate_sound in H. destruct H as [[_ T] | [_ [_ T]]]; exact T.
Qed.

(** X5.  Whatever the payload, a failure of the alternate-format parser is
    its own invalid-format error with the serialized payload; it never
    fails with a [TypeError]. *)
Theorem alternate_parser_fails_cleanly (RT : JsRuntime) (r : http_response) (e : exn) :
  parseResponse r ollama = Throw e ->
  e = Error ("Invalid response format: " ++ interpolate (JSON_stringify (data r))) /\
  (forall m, e <> TypeError m).
Proof.
  intros H. apply parse_alternate_failure in H. subst e.
  split; [reflexivity | discriminate].
Qed.

Lemma alternate_parser_fails_cleanly_witness :
  Error "Invalid response format: null"
  = Error ("Invalid response format: "
           ++ interpolate (JSON_stringify (JsRuntime := node_runtime Scenario.no_env)
                             (data {| status := 200; data := VNull |}))) /\
  (forall m, Error "Invalid response format: null" <> TypeError m).
Proof.
  apply (@alternate_parser_fails_cleanly (node_runtime Scenario.no_env)
           {| status := 200; data := VNull |}).
  reflexivity.
Defined.

(** X6.  The primary-format parser throws a [TypeError] exactly when
    [choices] is an array whose first element is [null] or [undefined];
    every other failure is the invalid-format error with the serialized
    payload. *)
Theorem primary_parser_failure_modes (RT : JsRuntime) (r : http_response) :
  ((exists m, parseResponse r openai = Throw (TypeError m)) <->
   (exists rest, get_prop (data r) "choices" = VArr (VNull :: rest) \/
                 get_prop (data r) "choices" = VArr (VUndefined :: rest))) /\
  (forall e, parseResponse r openai = Throw e ->
             (forall m, e <> TypeError m) ->
             e = Error ("Invalid response format: "
                        ++ interpolate (JSON_stringify (data r)))).
Proof.
  split; [split | ].
  - intros [m H]. apply parse_primary_failure in H.
    destruct H as [H | [(rest & C & _) | (rest & C & _)]]; [discriminate H | | ].
    + exists rest; left; exact C.
    + exists rest; right; exact C.
  - intros [rest C]. unfold_parser.
    destruct (data r) as [ | | b | n | s | items | fields];
      try (destruct C as [C | C]; discriminate C).
    cbn in C |- *.
    destruct (lookup "choices" fields) as [c | ];
      [ | destruct C as [C | C]; discriminate C].
    destruct C as [-> | ->]; cbn; eexists; reflexivity.
  - intros e H N. apply parse_primary_failure in H.
    destruct H as [H | [(rest & _ & ->) | (rest & _ & ->)]]; [exact H | | ];
      exfalso; eapply N; reflexivity.
Qed.

End MoreParsing.

Lemma primary_parser_failure_modes_witness :
  Error "Invalid response format: {}"
  = Error ("Invalid response format: "
           ++ interpolate (JSON_stringify (JsRuntime := node_runtime Scenario.no_env)
                             (data {| status := 200; data := VObj [] |}))).
Proof.
  apply (proj2 (@primary_parser_failure_modes (node_runtime Scenario.no_env)
                  {| status := 200; data := VObj [] |})).
  - reflexivity.
  - discriminate.
Defined.

(** ** Every outcome of [generate] and [chat] *)

Section Outcomes.
Import NosanaLLM.
Context {RT : JsRuntime}.
Variables (self : t) (net : Backend).

Lemma run_primary (messages : list ChatMessage) (fallback : Async value)
    (log : list request) :
  try_catch
    (response <- makeApiCall (baseUrl self ++ "/v1/chat/completions")
                   (ChatCompletionsBody (model self) messages (7 # 10) 1000 false) ;;
     lift (parseResponse response openai))
    (fun error =>
       handleApiError error (baseUrl self ++ "/v1/chat/completions") fallback)
    net log
  = if falls_back (net log (primary_request self messages))
    then fallback net (log ++ [primary_request self messages])%list
    else (primary_outcome (net log (primary_request self messages)),
          (log ++ [primary_request self messages])%list).
Proof.
  unfold try_catch, bind, makeApiCall, axios_post, lift.
  fold (primary_request self messages).
  destruct (net log (primary_request self messages)) as [r | m rq [resp | ]];
    cbv beta iota delta [settle falls_back primary_outcome].
  - destruct (parseResponse r openai) as [v | e] eqn:P; [reflexivity | ].
    destruct (@parse_primary_error_plain RT r e P) as [E1 E2].
    unfold handleApiError. rewrite E1, E2. reflexivity.
  - unfold handleApiError, fallback_status. simpl.
    destruct ((status resp =? 404) || (status resp =? 405))%Z; [reflexivity | ].
    destruct rq; reflexivity.
  - destruct rq; reflexivity.
Qed.

Lemma run_generate (prompt : string) (log : list request) :
  generate self prompt net log
  = if falls_back (net log (primary_request self (user_message prompt)))
    then generateNativeOllama self prompt net
           (log ++ [primary_request self (user_message prompt)])%list
    else (primary_outcome (net log (primary_request self (user_message prompt))),
          (log ++ [primary_request self (user_message prompt)])%list).
Proof. apply (run_primary (user_message prompt)). Qed.

Lemma run_chat (messages : list ChatMessage) (log : list request) :
  chat self messages net log
  = if falls_back (net log (primary_request self messages))
    then chatNativeOllama self messages net (log ++ [primary_request self messages])%list
    else (primary_outcome (net log (primary_request self messages)),
          (log ++ [primary_request self messages])%list).
Proof. apply run_primary. Qed.

Lemma falls_back_spec (o : outcome) :
  falls_back o = true <->
  exists m rq resp, o = Rejected m rq (Some resp) /\ fallback_status (status resp) = true.
Proof.
  split.
  - destruct o as [r | m rq [resp | ]]; simpl; try discriminate.
    intros F. exists m, rq, resp. split; [reflexivity | exact F].
  - intros (m & rq & resp & -> & F). exact F.
Qed.

Lemma primary_outcome_truthy (o : outcome) (v : value) :
  primary_outcome o = Return v -> truthy v = true.
Proof.
  destruct o as [r | m [ | ] [resp | ]]; cbv beta iota delta [primary_outcome];
    try refute.
  destruct (parseResponse r openai) as [w | e] eqn:P; [ | refute].
  intros H. injection H as <-. exact (@parse_truthy RT r openai w P).
Qed.

Lemma primary_outcome_error (o : outcome) (e : exn) :
  primary_outcome o = Throw e -> exists msg, e = Error msg.
Proof.
  destruct o as [r | m [ | ] [resp | ]]; cbv beta iota delta [primary_outcome].
  - destruct (parseResponse r openai); [refute | ].
    intros H; injection H as <-. eexists; reflexivity.
  - intros H; injection H as <-. eexists; reflexivity.
  - intros H; injection H as <-. eexists; reflexivity.
  - intros H; injection H as <-. eexists; reflexivity.
  - intros H; injection H as <-. eexists; reflexivity.
Qed.

End Outcomes.

Section OutcomeProperties.
Import NosanaLLM.

(** X7.  When the primary endpoint answers and the answer parses,
    [generate] and [chat] return the parsed content after that one
    request; the alternate endpoints are not contacted. *)
Theorem primary_success_single_request (RT : JsRuntime) (self : t) (net : Backend)
    (log : list request) (r : http_response) (v : value) :
  parseResponse r openai = Return v ->
  (forall prompt : string,
      net log (primary_request self (user_message prompt)) = Resolved r ->
      generate self prompt net log
      = (Return v, (log ++ [primary_request self (user_message prompt)])%list)) /\
  (forall messages : list ChatMessage,
      net log (primary_request self messages) = Resolved r ->
      chat self messages net log
      = (Return v, (log ++ [primary_request self messages])%list)).
Proof.
  intros P. split.
  - intros prompt N. rewrite run_generate, N.
    cbv beta iota delta [falls_back primary_outcome]. rewrite P. reflexivity.
  - intros messages N. rewrite run_chat, N.
    cbv beta iota delta [falls_back primary_outcome]. rewrite P. reflexivity.
Qed.

Lemma primary_success_single_request_witness :
  generate (RT := node_runtime Scenario.no_env) Scenario.client "Hi" Cases.net_primary []
  = (Return (VStr "hi"), ([] ++ [primary_request Scenario.client (user_message "Hi")])%list).
Proof.
  apply (proj1 (@primary_success_single_request (node_runtime Scenario.no_env)
                  Scenario.client Cases.net_primary []
                  {| status := 200; data := Scenario.completion (VStr "hi") |}
                  (VStr "hi") eq_refl)).
  reflexivity.
Defined.

(** X8.  When the primary endpoint answers with a payload its parser
    rejects, [generate] and [chat] throw a request error whose message is
    [Request failed: ] followed by the parser's message, after that one
    request: an unusable primary answer is not retried on the alternate
    endpoint, and the parser's own error does not reach the caller. *)
Theorem primary_unparsed_is_request_error (RT : JsRuntime) (self : t) (net : Backend)
    (log : list request) (r : http_response) (e : exn) :
  parseResponse r openai = Throw e ->
  (forall prompt : string,
      net log (primary_request self (user_message prompt)) = Resolved r ->
      generate self prompt net log
      = (Throw (Error ("Request failed: " ++ exn_message e)),
         (log ++ [primary_request self (user_message prompt)])%list)) /\
  (forall messages : list ChatMessage,
      net log (primary_request self messages) = Resolved r ->
      chat self messages net log
      = (Throw (Error ("Request failed: " ++ exn_message e)),
         (log ++ [primary_request self messages])%list)).
Proof.
  intros P. split.
  - intros prompt N. rewrite run_generate, N.
    cbv beta iota delta [falls_back primary_outcome]. rewrite P. reflexivity.
  - intros messages N. rewrite run_chat, N.
    cbv beta iota delta [falls_back primary_outcome]. rewrite P. reflexivity.
Qed.

Lemma primary_unparsed_is_request_error_witness :
  chat (RT := node_runtime Scenario.no_env) Scenario.client Scenario.history
    Cases.net_unusable []
  = (Throw (Error ("Request failed: "
                   ++ exn_message (Error "Invalid response format: {}"))),
     ([] ++ [primary_request Scenario.client Scenario.history])%list).
Proof.
  apply (proj2 (@primary_unparsed_is_request_error (node_runtime Scenario.no_env)
                  Scenario.client Cases.net_unusable []
                  {| status := 200; data := VObj [] |}
                  (Error "Invalid response format: {}") eq_refl)).
  reflexivity.
Defined.

(** X9.  When the primary request gets no response, [generate] and [chat]
    throw after that one request, with no fallback: [No response from
    Nosana: ] and the underlying message when the request was sent,
    [Request failed: ] and the underlying message when it was not. *)
Theorem no_response_is_not_retried (RT : JsRuntime) (self : t) (net : Backend)
    (log : list request) (m : string) (rq : bool) :
  (forall prompt : string,
      net log (primary_request self (user_message prompt)) = Rejected m rq None ->
      generate self prompt net log
      = (Throw (Error ((if rq then "No response from Nosana: " else "Request failed: ")
                       ++ m)),
         (log ++ [primary_request self (user_message prompt)])%list)) /\
  (forall messages : list ChatMessage,
      net log (primary_request self messages) = Rejected m rq None ->
      chat self messages net log
      = (Throw (Error ((if rq then "No response from Nosana: " else "Request failed: ")
                       ++ m)),
         (log ++ [primary_request self messages])%list)).
Proof.
  split.
  - intros prompt N. rewrite run_generate, N. destruct rq; reflexivity.
  - intros messages N. rewrite run_chat, N. destruct rq; reflexivity.
Qed.

Lemma no_response_is_not_retried_witness :
  generate (RT := node_runtime Scenario.no_env) Scenario.client "Hi"
    Cases.net_unreachable []
  = (Throw (Error ((if true then "No response from Nosana: " else "Request failed: ")
                   ++ "connect ECONNREFUSED")),
     ([] ++ [primary_request Scenario.client (user_message "Hi")])%list).
Proof.
  apply (proj1 (@no_response_is_not_retried (node_runtime Scenario.no_env)
                  Scenario.client Cases.net_unreachable []
                  "connect ECONNREFUSED" true)).
  reflexivity.
Defined.

(** X10.  On every network, [generate] and [chat] send the primary request
    first and at most one request more; the second request is sent
    exactly when the primary one is answered with status 404 or 405. *)
Theorem at_most_two_requests (RT : JsRuntime) (self : t) (net : Backend)
    (log : list request) :
  (forall prompt : string,
      (snd (generate self prompt net log)
       = (log ++ [primary_request self (user_message prompt)])%list \/
       snd (generate self prompt net log)
       = (log ++ [primary_request self (user_message prompt);
                  alternate_generate_request self prompt])%list) /\
      (snd (generate self prompt net log)
       = (log ++ [primary_request self (user_message prompt);
                  alternate_generate_request self prompt])%list
       <-> exists m rq resp,
             net log (primary_request self (user_message prompt))
             = Rejected m rq (Some resp) /\
             (status resp = 404%Z \/ status resp = 405%Z))) /\
  (forall messages : list ChatMessage,
      (snd (chat self messages net log)
       = (log ++ [primary_request self messages])%list \/
       snd (chat self messages net log)
       = (log ++ [primary_request self messages;
                  alternate_chat_request self messages])%list) /\
      (snd (chat self messages net log)
       = (log ++ [primary_request self messages;
                  alternate_chat_request self messages])%list
       <-> exists m rq resp,
             net log (primary_request self messages) = Rejected m rq (Some resp) /\
             (status resp = 404%Z \/ status resp = 405%Z))).
Proof.
  split.
  - intros prompt. rewrite run_generate.
    destruct (falls_back (net log (primary_request self (user_message prompt)))) eqn:F.
    + rewrite snd_generateNativeOllama, <- app_assoc.
      split; [right; reflexivity | ]. split; [intros _ | reflexivity].
      apply falls_back_spec in F. destruct F as (m & rq & resp & N & S).
      exists m, rq, resp. split; [exact N | apply fallback_status_spec; exact S].
    + split; [left; reflexivity | ]. split.
      * simpl. intros H. apply app_inv_head in H. discriminate H.
      * intros (m & rq & resp & N & S). apply fallback_status_spec in S.
        assert (T : falls_back (net log (primary_request self (user_message prompt)))
                    = true)
          by (apply falls_back_spec; exists m, rq, resp; split; assumption).
        rewrite T in F. discriminate F.
  - intros messages. rewrite run_chat.
    destruct (falls_back (net log (primary_request self messages))) eqn:F.
    + rewrite snd_chatNativeOllama, <- app_assoc.
      split; [right; reflexivity | ]. split; [intros _ | reflexivity].
      apply falls_back_spec in F. destruct F as (m & rq & resp & N & S).
      exists m, rq, resp. split; [exact N | apply fallback_status_spec; exact S].
    + split; [left; reflexivity | ]. split.
      * simpl. intros H. apply app_inv_head in H. discriminate H.
      * intros (m & rq & resp & N & S). apply fallback_status_spec in S.
        assert (T : falls_back (net log (primary_request self messages)) = true)
          by (apply falls_back_spec; exists m, rq, resp; split; assumption).
        rewrite T in F. discriminate F.
Qed.

(** X11.  Whatever [generate] or [chat] throws is an [Error] made by this
    class: no [AxiosError] of the transport and no [TypeError] of the
    parser reaches the caller as it is. *)
Theorem thrown_errors_are_wrapped (RT : JsRuntime) (self : t) (net : Backend)
    (log : list request) (e : exn) :
  (forall prompt : string,
      fst (generate self prompt net log) = Throw e -> exists msg, e = Error msg) /\
  (forall messages : list ChatMessage,
      fst (chat self messages net log) = Throw e -> exists msg, e = Error msg).
Proof.
  split.
  - intros prompt. rewrite run_generate.
    destruct (falls_back (net log (primary_request self (user_message prompt)))).
    + rewrite run_generateNativeOllama. cbv beta iota delta [fst].
      destruct (net _ (alternate_generate_request self prompt)) as [r | m rq resp].
      * destruct (parseResponse r ollama); [refute | ].
        intros H; injection H as <-. eexists; reflexivity.
      * intros H; injection H as <-. eexists; reflexivity.
    + cbv beta iota delta [fst]. apply primary_outcome_error.
  - intros messages. rewrite run_chat.
    destruct (falls_back (net log (primary_request self messages))).
    + rewrite run_chatNativeOllama. cbv beta iota delta [fst].
      destruct (net _ (alternate_chat_request self messages)) as [r | m rq resp].
      * destruct (parseResponse r ollama); [refute | ].
        intros H; injection H as <-. eexists; reflexivity.
      * intros H; injection H as <-. eexists; reflexivity.
    + cbv beta iota delta [fst]. apply primary_outcome_error.
Qed.

Lemma thrown_errors_are_wrapped_witness :
  exists msg, Error "No response from Nosana: connect ECONNREFUSED" = Error msg.
Proof.
  apply (proj1 (@thrown_errors_are_wrapped (node_runtime Scenario.no_env)
                  Scenario.client Cases.net_unreachable []
                  (Error "No response from Nosana: connect ECONNREFUSED")) "Hi").
  reflexivity.
Defined.

(** X12.  What [generate] or [chat] returns is truthy: never the empty
    string, [null] or [undefined], on the primary path and on the fallback
    path alike. *)
Theorem returned_text_is_truthy (RT : JsRuntime) (self : t) (net : Backend)
    (log : list request) (v : value) :
  (forall prompt : string,
      fst (generate self prompt net log) = Return v ->
      truthy v = true /\ v <> VStr EmptyString /\ v <> VNull /\ v <> VUndefined) /\
  (forall messages : list ChatMessage,
      fst (chat self messages net log) = Return v ->
      truthy v = true /\ v <> VStr EmptyString /\ v <> VNull /\ v <> VUndefined).
Proof.
  assert (K : truthy v = true ->
              truthy v = true /\ v <> VStr EmptyString /\ v <> VNull /\ v <> VUndefined).
  { intros T. repeat split; try exact T; intros E; rewrite E in T; discriminate T. }
  split.
  - intros prompt. rewrite run_generate.
    destruct (falls_back (net log (primary_request self (user_message prompt)))).
    + rewrite run_generateNativeOllama. cbv beta iota delta [fst].
      destruct (net _ (alternate_generate_request self prompt)) as [r | m rq resp];
        [ | refute].
      destruct (parseResponse r ollama) as [w | e] eqn:P; [ | refute].
      intros H; injection H as <-. apply K. exact (@parse_truthy RT r ollama w P).
    + cbv beta iota delta [fst]. intros H. apply K.
      exact (primary_outcome_truthy _ H).
  - intros messages. rewrite run_chat.
    destruct (falls_back (net log (primary_request self messages))).
    + rewrite run_chatNativeOllama. cbv beta iota delta [fst].
      destruct (net _ (alternate_chat_request self messages)) as [r | m rq resp];
        [ | refute].
      destruct (parseResponse r ollama) as [w | e] eqn:P; [ | refute].
      intros H; injection H as <-. apply K. exact (@parse_truthy RT r ollama w P).
    + cbv beta iota delta [fst]. intros H. apply K.
      exact (primary_outcome_truthy _ H).
Qed.

Lemma returned_text_is_truthy_witness :
  truthy (VStr "hello") = true /\ VStr "hello" <> VStr EmptyString /\
  VStr "hello" <> VNull /\ VStr "hello" <> VUndefined.
Proof.
  apply (proj2 (@returned_text_is_truthy (node_runtime Scenario.no_env)
                  Scenario.client Scenario.net_404_native [] (VStr "hello"))
           Scenario.history).
  reflexivity.
Defined.

(** X13.  Unless the primary request is answered with 404 or 405,
    [generate] on a prompt is [chat] on the one-message history holding
    that prompt under the role [user]: same requests, same result. *)
Theorem generate_is_chat_without_fallback (RT : JsRuntime) (self : t) (net : Backend)
    (log : list request) (prompt : string) :
  (forall m rq resp,
      net log (primary_request self (user_message prompt)) = Rejected m rq (Some resp) ->
      status resp <> 404%Z /\ status resp <> 405%Z) ->
  generate self prompt net log = chat self (user_message prompt) net log.
Proof.
  intros H. rewrite run_generate, run_chat.
  destruct (falls_back (net log (primary_request self (user_message prompt)))) eqn:F;
    [ | reflexivity].
  apply falls_back_spec in F. destruct F as (m & rq & resp & N & S).
  apply fallback_status_spec in S. destruct (H m rq resp N) as [N4 N5].
  destruct S; contradiction.
Qed.

Lemma generate_is_chat_without_fallback_witness :
  generate (RT := node_runtime Scenario.no_env) Scenario.client "Hi" Scenario.net_500 []
  = chat (RT := node_runtime Scenario.no_env) Scenario.client (user_message "Hi")
      Scenario.net_500 [].
Proof.
  apply (@generate_is_chat_without_fallback (node_runtime Scenario.no_env)
           Scenario.client Scenario.net_500 [] "Hi").
  intros m rq resp N. injection N as _ _ <-. split; discriminate.
Defined.

(** X14.  When the primary request is answered with 404 or 405 and the
    alternate endpoint answers with a payload its parser accepts,
    [generate] and [chat] return the parsed text after the two requests:
    the failure of the primary attempt leaves no trace in the result. *)
Theorem fallback_success (RT : JsRuntime) (self : t) (net : Backend)
    (log : list request) (m : string) (rq : bool) (resp r : http_response) (v : value) :
  status resp = 404%Z \/ status resp = 405%Z ->
  parseResponse r ollama = Return v ->
  (forall prompt : string,
      net log (primary_request self (user_message prompt)) = Rejected m rq (Some resp) ->
      net (log ++ [primary_request self (user_message prompt)])%list
        (alternate_generate_request self prompt) = Resolved r ->
      generate self prompt net log
      = (Return v,
         (log ++ [primary_request self (user_message prompt);
                  alternate_generate_request self prompt])%list)) /\
  (forall messages : list ChatMessage,
      net log (primary_request self messages) = Rejected m rq (Some resp) ->
      net (log ++ [primary_request self messages])%list
        (alternate_chat_request self messages) = Resolved r ->
      chat self messages net log
      = (Return v,
         (log ++ [primary_request self messages;
                  alternate_chat_request self messages])%list)).
Proof.
  intros S P. apply fallback_status_spec in S. split.
  - intros prompt N A. rewrite run_generate, N.
    cbv beta iota delta [falls_back]. rewrite S.
    rewrite run_generateNativeOllama, A, P, <- app_assoc. reflexivity.
  - intros messages N A. rewrite run_chat, N.
    cbv beta iota delta [falls_back]. rewrite S.
    rewrite run_chatNativeOllama, A, P, <- app_assoc. reflexivity.
Qed.

Lemma fallback_success_witness :
  generate (RT := node_runtime Scenario.no_env) Scenario.client "Hi"
    Scenario.net_404_native []
  = (Return (VStr "hi"),
     ([] ++ [primary_request Scenario.client (user_message "Hi");
             alternate_generate_request Scenario.client "Hi"])%list).
Proof.
  apply (proj1 (@fallback_success (node_runtime Scenario.no_env)
                  Scenario.client Scenario.net_404_native []
                  "Request failed with status code 404" true
                  {| status := 404; data := Scenario.not_found |}
                  {| status := 200; data := VObj [("response", VStr "hi")] |}
                  (VStr "hi") (or_introl eq_refl) eq_refl)).
  - reflexivity.
  - reflexivity.
Defined.

End OutcomeProperties.

(** ** The search client and the search tool on every network *)

Section MoreSearch.
Import BrightDataScraper.
Context {RT : JsRuntime}.

Lemma js_substring_short (s : string) (stop : nat) :
  String.length s <= stop -> js_substring s 0 (Z.of_nat stop) = s.
Proof.
  intros L. destruct (js_substring_prefix s stop) as [rest [E Len]].
  assert (R : String.length rest = 0).
  { apply (f_equal String.length) in E. rewrite length_append, Len in E. lia. }
  destruct rest; [ | discriminate R].
  rewrite append_empty_r in E. symmetry. exact E.
Qed.

Lemma js_substring_bound (s : string) :
  String.length (js_substring s 0 5000) <= 5000.
Proof.
  destruct (js_substring_prefix s 5000) as [rest [_ L]].
  change (Z.of_nat 5000) with 5000%Z in L. rewrite L. apply Nat.le_min_l.
Qed.

Lemma searchWeb_shape (self : t) (net : Backend) (query : string) (limit : option Z)
    (log : list request) :
  exists results new,
    searchWeb self query limit net log = (Return results, (log ++ new)%list) /\
    List.length new <= 1 /\
    (results = [] \/ exists text, results = [a_result text]).
Proof.
  rewrite run_searchWeb.
  destruct (encodeURIComponent query) as [encoded | e].
  - destruct (net log (search_request self (search_url encoded))) as [r | m rq resp].
    + destruct (truthy (data r)) eqn:T.
      * destruct (data_string_defined (data r) T) as [text D].
        rewrite (formatRawResults_truthy _ T D).
        exists [a_result text], [search_request self (search_url encoded)].
        repeat split; [simpl; lia | right; exists text; reflexivity].
      * rewrite (formatRawResults_falsy _ T).
        exists [], [search_request self (search_url encoded)].
        repeat split; [simpl; lia | left; reflexivity].
    + exists [], [search_request self (search_url encoded)].
      repeat split; [simpl; lia | left; reflexivity].
  - exists [], []. rewrite app_nil_r. repeat split; [simpl; lia | left; reflexivity].
Qed.

Lemma starts_with_append (s q : string) : starts_with (s ++ q) s = true.
Proof.
  induction s as [ | c s IH]; [destruct q; reflexivity | ].
  simpl. rewrite Ascii.eqb_refl. exact IH.
Qed.

Lemma includes_prepend (p t s : string) :
  includes t s = true -> includes (p ++ t) s = true.
Proof.
  intros H. induction p as [ | c p IH]; [exact H | ].
  change (includes (String c p ++ t) s)
    with (starts_with (String c (p ++ t)) s || includes (p ++ t) s).
  rewrite IH. apply orb_true_r.
Qed.

Lemma includes_middle (p s q : string) : includes (p ++ s ++ q) s = true.
Proof.
  apply includes_prepend.
  destruct (s ++ q) as [ | c rest] eqn:E.
  - destruct s; [reflexivity | discriminate E].
  - change (includes (String c rest) s)
      with (starts_with (String c rest) s || includes rest s).
    rewrite <- E, starts_with_append. reflexivity.
Qed.

Lemma run_call (self : WebSearchTool.t) (net : Backend) (query : string)
    (log : list request) :
  WebSearchTool._call self query net log
  = (match fst (searchWeb (WebSearchTool.scraper self) query None net log) with
     | Return [] => Return WebSearchTool.no_results
     | Return (first :: _) =>
         Return (WebSearchTool.results_header query ++ snippet first)
     | Throw e => Throw e
     end,
     snd (searchWeb (WebSearchTool.scraper self) query None net log)).
Proof.
  unfold WebSearchTool._call, bind.
  destruct (searchWeb (WebSearchTool.scraper self) query None net log)
    as [[results | e] log'].
  - destruct results; reflexivity.
  - reflexivity.
Qed.

End MoreSearch.

Section SearchProperties.
Import BrightDataScraper.

(** X15.  On every network and for every query and limit, [searchWeb]
    returns at most one result and sends at most one request; a result it
    returns has the title [Search Results], the URL
    [https://www.google.com] and a snippet of at most 5000 characters. *)
Theorem searchWeb_at_most_one_result (RT : JsRuntime) (self : t) (net : Backend)
    (query : string) (limit : option Z) (log : list request) :
  exists results new,
    searchWeb self query limit net log = (Return results, (log ++ new)%list) /\
    List.length results <= 1 /\
    List.length new <= 1 /\
    (forall r, In r results ->
               title r = "Search Results" /\ url r = "https://www.google.com" /\
               String.length (snippet r) <= 5000).
Proof.
  destruct (searchWeb_shape self net query limit log)
    as (results & new & E & Ln & [-> | [text ->]]).
  - exists [], new. repeat split; try assumption; simpl; try lia; contradiction.
  - exists [a_result text], new. repeat split; try assumption; simpl; try lia;
      destruct H as [<- | []]; try reflexivity.
    apply js_substring_bound.
Qed.

(** X16.  A successful response whose body is a non-empty string of at
    most 5000 characters comes back as one result whose snippet is that
    body, unchanged. *)
Theorem short_text_body_is_kept (RT : JsRuntime) (self : t) (net : Backend)
    (query encoded body : string) (limit : option Z) (log : list request)
    (code : Z) :
  encodeURIComponent query = Return encoded ->
  net log (search_request self (search_url encoded))
  = Resolved {| status := code; data := VStr body |} ->
  body <> EmptyString ->
  String.length body <= 5000 ->
  searchWeb self query limit net log
  = (Return [{| title := "Search Results";
                url := "https://www.google.com";
                snippet := body |}],
     (log ++ [search_request self (search_url encoded)])%list).
Proof.
  intros E N B L. rewrite run_searchWeb, E, N.
  assert (T : truthy (VStr body) = true).
  { simpl. apply negb_true_iff. apply String.eqb_neq. exact B. }
  cbn [data]. rewrite (@formatRawResults_truthy RT (VStr body) body T eq_refl).
  pose proof (js_substring_short body L) as S.
  change (Z.of_nat 5000) with 5000%Z in S. rewrite S. reflexivity.
Qed.

Lemma short_text_body_is_kept_witness :
  searchWeb (RT := node_runtime Scenario.no_env) Scenario.scraper "rocq prover" None
    (Scenario.net_page (VStr "<html>Rocq</html>")) []
  = (Return [{| title := "Search Results";
                url := "https://www.google.com";
                snippet := "<html>Rocq</html>" |}],
     ([] ++ [search_request Scenario.scraper (search_url "rocq%20prover")])%list).
Proof.
  apply (@short_text_body_is_kept (node_runtime Scenario.no_env) Scenario.scraper
           (Scenario.net_page (VStr "<html>Rocq</html>"))
           "rocq prover" "rocq%20prover" "<html>Rocq</html>" None [] 200%Z
           eq_refl eq_refl).
  - discriminate.
  - vm_compute. repeat constructor.
Defined.

(** X17.  The tool answers every query with a text and never throws; it
    sends what [searchWeb] sends; and the text is the fixed no-results
    message exactly when [searchWeb] returned the empty sequence. *)
Theorem tool_answers_every_query (RT : JsRuntime) (self : WebSearchTool.t)
    (net : Backend) (query : string) (log : list request) :
  exists text,
    fst (WebSearchTool._call self query net log) = Return text /\
    snd (WebSearchTool._call self query net log)
    = snd (searchWeb (WebSearchTool.scraper self) query None net log) /\
    (text = WebSearchTool.no_results <->
     fst (searchWeb (WebSearchTool.scraper self) query None net log) = Return []).
Proof.
  rewrite run_call.
  destruct (searchWeb_shape (WebSearchTool.scraper self) net query None log)
    as (results & new & E & _ & [-> | [text ->]]); rewrite E;
    cbv beta iota delta [fst snd].
  - exists WebSearchTool.no_results. repeat split.
  - exists (WebSearchTool.results_header query ++ snippet (a_result text)).
    repeat split; intros H; [ | discriminate H].
    unfold WebSearchTool.results_header, WebSearchTool.no_results in H.
    simpl in H. discriminate H.
Qed.

(** X18.  When [searchWeb] returns a result, the text of the tool is the
    header line with the query between double quotes, an empty line, and
    the snippet of the first result; it contains the query and the
    snippet. *)
Theorem tool_text_holds_query_and_snippet (RT : JsRuntime) (self : WebSearchTool.t)
    (net : Backend) (query : string) (log : list request)
    (first : SearchResult) (rest : list SearchResult) :
  fst (searchWeb (WebSearchTool.scraper self) query None net log)
  = Return (first :: rest) ->
  exists text,
    fst (WebSearchTool._call self query net log) = Return text /\
    text = "Web search results for " ++ WebSearchTool.double_quote ++ query
           ++ WebSearchTool.double_quote ++ ":" ++ WebSearchTool.line_feed
           ++ WebSearchTool.line_feed ++ snippet first /\
    includes text query = true /\
    includes text (snippet first) = true.
Proof.
  intros H. rewrite run_call, H. cbv beta iota delta [fst].
  exists (WebSearchTool.results_header query ++ snippet first).
  split; [reflexivity | ]. split; [ | split].
  - unfold WebSearchTool.results_header. rewrite !append_assoc. reflexivity.
  - unfold WebSearchTool.results_header. rewrite !append_assoc.
    apply includes_prepend. apply includes_prepend.
    apply (includes_middle EmptyString).
  - apply includes_suffix.
Qed.

Lemma tool_text_holds_query_and_snippet_witness :
  exists text,
    fst (WebSearchTool._call (RT := node_runtime Scenario.no_env) Cases.tool
           "rocq prover" (Scenario.net_page (VStr "<html>Rocq</html>")) [])
    = Return text /\
    text = "Web search results for " ++ WebSearchTool.double_quote ++ "rocq prover"
           ++ WebSearchTool.double_quote ++ ":" ++ WebSearchTool.line_feed
           ++ WebSearchTool.line_feed
           ++ snippet {| title := "Search Results";
                         url := "https://www.google.com";
                         snippet := "<html>Rocq</html>" |} /\
    includes text "rocq prover" = true /\
    includes text (snippet {| title := "Search Results";
                              url := "https://www.google.com";
                              snippet := "<html>Rocq</html>" |}) = true.
Proof.
  apply (@tool_text_holds_query_and_snippet (node_runtime Scenario.no_env) Cases.tool
           (Scenario.net_page (VStr "<html>Rocq</html>")) "rocq prover" []
           {| title := "Search Results";
              url := "https://www.google.com";
              snippet := "<html>Rocq</html>" |} []).
  reflexivity.
Defined.

(** X19.  The text of the tool is never longer than the query plus 5028
    characters, whatever the provider sends back. *)
Theorem tool_text_is_bounded (RT : JsRuntime) (self : WebSearchTool.t)
    (net : Backend) (query : string) (log : list request) :
  exists text,
    fst (WebSearchTool._call self query net log) = Return text /\
    String.length text <= String.length query + 5028.
Proof.
  assert (K : 5028 = 28 + 5000) by reflexivity.
  assert (K' : 39 <= 5000) by (apply Nat.leb_le; reflexivity).
  rewrite K. clear K. rewrite run_call.
  destruct (searchWeb_shape (WebSearchTool.scraper self) net query None log)
    as (results & new & E & _ & [-> | [text ->]]); rewrite E;
    cbv beta iota delta [fst].
  - exists WebSearchTool.no_results. split; [reflexivity | ].
    unfold WebSearchTool.no_results. simpl String.length.
    revert K'. generalize 5000. intros k K'. lia.
  - exists (WebSearchTool.results_header query ++ snippet (a_result text)).
    split; [reflexivity | ].
    unfold WebSearchTool.results_header. rewrite !length_append.
    pose proof (js_substring_bound text) as B.
    change (snippet (a_result text)) with (js_substring text 0 5000).
    simpl String.length. clear K'. revert B. generalize 5000. intros k B. lia.
Qed.

(** X20.  When the query cannot be encoded or the request is rejected,
    with any status or with no response at all, the tool answers with the
    no-results message: a failure reads to the agent like an empty
    search. *)
Theorem tool_failure_reads_as_no_results (RT : JsRuntime) (self : WebSearchTool.t)
    (net : Backend) (query : string) (log : list request) :
  (forall e, encodeURIComponent query = Throw e ->
             WebSearchTool._call self query net log
             = (Return WebSearchTool.no_results, log)) /\
  (forall encoded m rq resp,
      encodeURIComponent query = Return encoded ->
      net log (search_request (WebSearchTool.scraper self) (search_url encoded))
      = Rejected m rq resp ->
      WebSearchTool._call self query net log
      = (Return WebSearchTool.no_results,
         (log ++ [search_request (WebSearchTool.scraper self) (search_url encoded)])%list)).
Proof.
  split.
  - intros e E. rewrite run_call, run_searchWeb, E. reflexivity.
  - intros encoded m rq resp E N. rewrite run_call, run_searchWeb, E, N. reflexivity.
Qed.

Lemma tool_failure_reads_as_no_results_witness :
  WebSearchTool._call (RT := node_runtime Scenario.no_env) Cases.tool "rocq prover"
    Scenario.net_401 []
  = (Return "No search results found. The web search failed or returned no data.",
     ([] ++ [search_request Scenario.scraper (search_url "rocq%20prover")])%list).
Proof.
  apply (proj2 (@tool_failure_reads_as_no_results (node_runtime Scenario.no_env)
                  Cases.tool Scenario.net_401 "rocq prover" [])
           "rocq%20prover" "Request failed with status code 401" true
           (Some {| status := 401; data := VStr "Unauthorized" |})
           eq_refl eq_refl).
Defined.

End SearchProperties.
